(** * Employee Salary Tracker: the wage engine of [salary.py]

    A shallow embedding of [parse_hours], [calculate_salary] and [main],
    the properties of the specification checked against them, and further
    properties that the code shows.

    Python floats are IEEE 754 binary64 values and are modelled by Rocq's
    primitive floats, whose operations are specified by [SpecFloat]; Python
    integers are unbounded and are modelled by [Z].  Exceptions are values
    of a result type.  A table is the list of its rows, and the tables a
    caller holds live in a store, since the engine writes into the table
    it is given.

    The engine relies on these behaviours of pandas and CPython:
    - [pd.to_datetime(., errors="coerce")] yields a timestamp or NaT for
      each value; which values it reads as dates is left open, and the
      coercion is a parameter of the engine.
    - [NaT.weekday()] is NaN and [NaT.date()] is NaT; neither raises.
    - [groupby] leaves out the rows whose key is missing and returns the
      groups in ascending order of the key; the sum it takes over a group
      is a parameter of the engine, and [Pandas.group_sum] is the sum
      that pandas takes of a column of doubles.
    - A table handed to the engine has the five columns the engine names.
    - A table built from an empty list has no columns.
    - [float(int)], [int / int] and [float(str)] round to the nearest
      double and [round(x, 2)] rounds the exact decimal value of [x].
    - [pd.read_excel] returns a new table on every run of the page, and a
      number input created with integers returns an integer;
      [date.fromisoformat] is a parameter of the application. *)

From Stdlib Require Import ZArith Floats String Ascii List Bool Lia.
From Stdlib Require Uint63.
From stdpp Require Import base option list strings sorting gmap.

Open Scope Z_scope.

(** ** Exceptions *)

Inductive exn : Type :=
  | KeyError
  | OverflowError
  | ZeroDivisionError
  | ValueError
  | AttributeError.

Inductive result (A : Type) : Type :=
  | Ok (a : A)
  | Raise (e : exn).

Arguments Ok {A} a.
Arguments Raise {A} e.

#[global] Instance result_ret : MRet result := fun A a => Ok a.
#[global] Instance result_bind : MBind result := fun A B k m =>
  match m with
  | Ok a => k a
  | Raise e => Raise e
  end.

#[global] Instance result_fmap : FMap result := fun A B f m =>
  match m with
  | Ok a => Ok (f a)
  | Raise e => Raise e
  end.

(** [try: ... except: return d] with a bare [except]. *)
Definition except_all {A : Type} (m : result A) (d : A) : A :=
  match m with
  | Ok a => a
  | Raise _ => d
  end.

Definition is_ok {A : Type} (m : result A) : bool :=
  match m with
  | Ok _ => true
  | Raise _ => false
  end.

(** The loop [for x in l: results.append(f x)]: the first exception ends it. *)
Fixpoint for_each {A B : Type} (f : A -> result B) (l : list A) : result (list B) :=
  match l with
  | [] => Ok []
  | x :: l' =>
      y ← f x;
      ys ← for_each f l';
      Ok (y :: ys)
  end.

(** ** Python numbers *)

Module Py.

(** An integer as a float operand, before any rounding. *)
Definition Z2SF (z : Z) : spec_float :=
  match z with
  | Z0 => S754_zero false
  | Zpos p => S754_finite false p 0
  | Zneg p => S754_finite true p 0
  end.

(** [float(z)] rounds to nearest, ties to even; an integer beyond the
    range of a double raises [OverflowError]. *)
Definition float_of_Z (z : Z) : float :=
  SF2Prim (binary_normalize prec emax z 0 false).

Definition float_of_int (z : Z) : result float :=
  let f := float_of_Z z in
  if is_infinity f then Raise OverflowError else Ok f.

(** [a / b] on integers is the correctly rounded quotient. *)
Definition int_quotient (a b : Z) : float :=
  SF2Prim (SFdiv prec emax (Z2SF a) (Z2SF b)).

Definition int_truediv (a b : Z) : result float :=
  if b =? 0 then Raise ZeroDivisionError
  else
    let f := int_quotient a b in
    if is_infinity f then Raise OverflowError else Ok f.

Definition float_truediv (x y : float) : result float :=
  if is_zero y then Raise ZeroDivisionError else Ok (x / y)%float.

(** Mixed operations convert the integer operand first. *)
Definition int_add_float (z : Z) (x : float) : result float :=
  y ← float_of_int z; Ok (y + x)%float.

Definition float_add_int (x : float) (z : Z) : result float :=
  y ← float_of_int z; Ok (x + y)%float.

Definition float_mul_int (x : float) (z : Z) : result float :=
  y ← float_of_int z; Ok (x * y)%float.

Definition float_truediv_int (x : float) (z : Z) : result float :=
  y ← float_of_int z; float_truediv x y.

(** A number as Python has it: [int] or [float]. *)
Inductive num : Type :=
  | PInt (z : Z)
  | PFloat (f : float).

Definition to_float (n : num) : result float :=
  match n with
  | PInt z => float_of_int z
  | PFloat f => Ok f
  end.

Definition add (a b : num) : result num :=
  match a, b with
  | PInt x, PInt y => Ok (PInt (x + y))
  | PInt x, PFloat y => PFloat <$> int_add_float x y
  | PFloat x, PInt y => PFloat <$> float_add_int x y
  | PFloat x, PFloat y => Ok (PFloat (x + y)%float)
  end.

Definition mul_int (a : num) (k : Z) : result num :=
  match a with
  | PInt x => Ok (PInt (x * k))
  | PFloat x => PFloat <$> float_mul_int x k
  end.

Definition truediv_int (a : num) (k : Z) : result float :=
  match a with
  | PInt x => int_truediv x k
  | PFloat x => float_truediv_int x k
  end.

Definition float_add_num (x : float) (n : num) : result float :=
  match n with
  | PInt z => float_add_int x z
  | PFloat y => Ok (x + y)%float
  end.

Definition float_mul_num (x : float) (n : num) : result float :=
  match n with
  | PInt z => float_mul_int x z
  | PFloat y => Ok (x * y)%float
  end.

(** [n == k] for an integer [k]; a NaN equals nothing. *)
Definition num_eq_int (n : num) (k : Z) : bool :=
  match n with
  | PInt z => z =? k
  | PFloat f => (f =? float_of_Z k)%float
  end.

(** *** [round(x, 2)]

    CPython rounds the exact decimal expansion of [x] to two places, ties
    to even, and converts the decimal back to the nearest double; NaN and
    the infinities round to themselves.  The result never leaves the
    range of doubles for two places, so the [OverflowError] of the
    general [round] does not arise. *)
Definition round_half_even (n d : Z) : Z :=
  let q := n / d in
  let r := n mod d in
  match 2 * r ?= d with
  | Lt => q
  | Gt => q + 1
  | Eq => if Z.even q then q else q + 1
  end.

Definition hundredths (m : positive) (e : Z) : Z :=
  if 0 <=? e then Zpos m * 100 * 2 ^ e
  else round_half_even (Zpos m * 100) (2 ^ (- e)).

Definition round2 (x : float) : float :=
  match Prim2SF x with
  | S754_finite s m e =>
      match hundredths m e with
      | Zpos n => SF2Prim (SFdiv prec emax (S754_finite s n 0) (Z2SF 100))
      | _ => SF2Prim (S754_zero s)
      end
  | _ => x
  end.

End Py.

(** ** The sum pandas takes over a group

    [groupby(...).agg("sum")] on a column of doubles adds the values of a
    group in row order with a compensated (Kahan) sum; a NaN is skipped,
    and the sum of no value is 0.0. *)

Module Pandas.

(** One value added to the running sum and its compensation; a
    compensation that is NaN, as an infinite value leaves it, starts
    again from zero. *)
Definition sum_step (acc : float * float) (val : float) : float * float :=
  if is_nan val then acc
  else
    let (sumx, compensation) := acc in
    let y := (val - compensation)%float in
    let t := (sumx + y)%float in
    let c := (t - sumx - y)%float in
    (t, if is_nan c then 0%float else c).

Definition group_sum (values : list float) : float :=
  fst (foldl sum_step (0%float, 0%float) values).

End Pandas.

(** ** Text: [str.strip], [str.split], [int(str)], [float(str)]

    Strings are taken over ASCII: the whitespace and the digits are the
    ASCII ones.  Python knows white space and digits beyond ASCII that
    are not read here, and the properties of texts are stated for the
    texts that are [ascii_only]. *)

Module Text.

Definition text : Type := list ascii.

Definition is_space (c : ascii) : bool :=
  let n := N_of_ascii c in
  (((9 <=? n) && (n <=? 13)) || ((28 <=? n) && (n <=? 32)))%N.

Fixpoint lstrip (s : text) : text :=
  match s with
  | c :: s' => if is_space c then lstrip s' else s
  | [] => []
  end.

Definition strip (s : text) : text :=
  rev (lstrip (rev (lstrip s))).

(** The white space that [int] and [float] skip before and after an ASCII
    literal: tab to carriage return, and the space.  The separators 28 to
    31, which [str.strip] removes, are no white space to them. *)
Definition is_c_space (c : ascii) : bool :=
  let n := N_of_ascii c in
  (((9 <=? n) && (n <=? 13)) || (n =? 32))%N.

Fixpoint c_lstrip (s : text) : text :=
  match s with
  | c :: s' => if is_c_space c then c_lstrip s' else s
  | [] => []
  end.

Definition c_strip (s : text) : text :=
  rev (c_lstrip (rev (c_lstrip s))).

Definition is_ascii (c : ascii) : bool := (N_of_ascii c <? 128)%N.

Definition ascii_only (s : text) : bool := forallb is_ascii s.

Definition is_char (c d : ascii) : bool := Ascii.eqb c d.

#[global] Arguments is_char : simpl never.

Definition contains (c : ascii) (s : text) : bool :=
  existsb (is_char c) s.

(** [s.split(sep)] for a one-character separator. *)
Fixpoint split (sep : ascii) (s : text) : list text :=
  match s with
  | [] => [[]]
  | c :: s' =>
      if is_char sep c then [] :: split sep s'
      else
        match split sep s' with
        | w :: ws => (c :: w) :: ws
        | [] => [[c]]
        end
  end.

Definition digit_val (c : ascii) : option Z :=
  let n := N_of_ascii c in
  if ((48 <=? n) && (n <=? 57))%N then Some (Z.of_N n - 48) else None.

(** Digits with single underscores between them; the value and the
    number of digits. *)
Fixpoint read_digits (acc : Z) (n : nat) (after_digit : bool) (s : text)
  : option (Z * nat) :=
  match s with
  | [] => if after_digit then Some (acc, n) else None
  | c :: s' =>
      match digit_val c with
      | Some d => read_digits (10 * acc + d) (S n) true s'
      | None =>
          if is_char "_" c && after_digit then read_digits acc n false s'
          else None
      end
  end.

Definition digits (s : text) : option (Z * nat) := read_digits 0 0%nat false s.

(** An optional sign: [true] for minus, and the rest. *)
Definition read_sign (s : text) : bool * text :=
  match s with
  | c :: s' =>
      if is_char "-" c then (true, s')
      else if is_char "+" c then (false, s')
      else (false, s)
  | [] => (false, [])
  end.

(** [sys.int_max_str_digits], by default: [int] refuses a literal with
    more digits, the leading zeros counted and the underscores not. *)
Definition max_str_digits : nat := 4300.

(** [int(s)] in base ten. *)
Definition py_int (s : text) : result Z :=
  let (neg, body) := read_sign (c_strip s) in
  match digits body with
  | Some (v, n) =>
      if (max_str_digits <? n)%nat then Raise ValueError
      else Ok (if neg then - v else v)
  | None => Raise ValueError
  end.

Definition lower (c : ascii) : ascii :=
  let n := N_of_ascii c in
  if ((65 <=? n) && (n <=? 90))%N then ascii_of_N (n + 32) else c.

Definition text_eqb (s t : text) : bool :=
  String.eqb (string_of_list_ascii s) (string_of_list_ascii t).

Definition is_word (w : string) (s : text) : bool :=
  text_eqb (map lower s) (list_ascii_of_string w).

(** The text before the first character satisfying [p], and the text
    after it when there is one. *)
Fixpoint break_at (p : ascii -> bool) (s : text) : text * option text :=
  match s with
  | [] => ([], None)
  | c :: s' =>
      if p c then ([], Some s')
      else let (a, b) := break_at p s' in (c :: a, b)
  end.

Definition opt_digits (s : text) : option (Z * nat) :=
  match s with
  | [] => Some (0, 0%nat)
  | _ => digits s
  end.

(** The decimal [m * 10 ^ e] of a literal [int.frac e exp]. *)
Definition read_decimal (s : text) : option (Z * Z) :=
  let (mant, expo) := break_at (fun c => is_char "e" c || is_char "E" c) s in
  let (ipart, fpart) := break_at (is_char ".") mant in
  let fpart := default [] fpart in
  match ipart, fpart with
  | [], [] => None
  | _, _ =>
      '(iv, _) ← opt_digits ipart;
      '(fv, fn) ← opt_digits fpart;
      ex ← match expo with
           | None => Some 0
           | Some es =>
               let (neg, body) := read_sign es in
               '(v, _) ← digits body;
               Some (if neg then - v else v)
           end;
      Some (iv * 10 ^ Z.of_nat fn + fv, ex - Z.of_nat fn)
  end.

(** The double nearest to [m * 10 ^ e], for [m] positive; beyond the
    range it is an infinity. *)
Definition nearest (neg : bool) (m : positive) (e : Z) : float :=
  if 0 <=? e then
    SF2Prim (binary_normalize prec emax
               ((if neg then Zneg m else Zpos m) * 10 ^ e) 0 false)
  else
    SF2Prim (SFdiv prec emax (S754_finite neg m 0) (Py.Z2SF (10 ^ (- e)))).

(** [float(s)]; the number of digits is not limited. *)
Definition py_float (s : text) : result float :=
  let (neg, body) := read_sign (c_strip s) in
  if is_word "inf" body || is_word "infinity" body then
    Ok (if neg then neg_infinity else infinity)
  else if is_word "nan" body then Ok nan
  else
    match read_decimal body with
    | Some (Zpos m, e) => Ok (nearest neg m e)
    | Some (_, _) => Ok (if neg then (-0)%float else 0%float)
    | None => Raise ValueError
    end.

End Text.

(** ** The hours parser *)

(** A raw sheet value: an empty cell or [None], a number or text. *)
Inductive value : Type :=
  | VNull
  | VInt (z : Z)
  | VFloat (f : float)
  | VStr (s : string).

(** [pd.isna]: [None] and NaN. *)
Definition pd_isna (v : value) : bool :=
  match v with
  | VNull => true
  | VFloat f => is_nan f
  | _ => false
  end.

(** The body of the [try] in [parse_hours], on [str(value)]. *)
Definition hours_of_text (s : string) : result float :=
  let value := Text.strip (list_ascii_of_string s) in
  if Text.contains ":" value then
    match Text.split ":" value with
    | [h; m] =>
        hh ← Text.py_int h;
        mm ← Text.py_int m;
        q ← Py.int_truediv mm 60;
        Py.int_add_float hh q
    | _ => Raise ValueError
    end
  else Text.py_float value.

Definition parse_hours (value : value) : result float :=
  if pd_isna value then Ok 0%float
  else
    match value with
    | VInt z => Py.float_of_int z
    | VFloat f => Ok f
    | VStr s => Ok (except_all (hours_of_text s) 0%float)
    | VNull => Ok 0%float
    end.

(** ** Calendar dates, times of day and timestamps *)

Record date : Type := { year : Z; month : Z; day : Z }.

Record time : Type := { hour : Z; minute : Z; second : Z; microsecond : Z }.

Record timestamp : Type := { ts_date : date; ts_time : time }.

#[global] Instance date_eq_dec : EqDecision date.
Proof. solve_decision. Defined.

#[global] Instance time_eq_dec : EqDecision time.
Proof. solve_decision. Defined.

Module Calendar.

Definition is_leap (y : Z) : bool :=
  (y mod 4 =? 0) && (negb (y mod 100 =? 0) || (y mod 400 =? 0)).

Definition days_before_year (y : Z) : Z :=
  let y := y - 1 in
  y * 365 + y / 4 - y / 100 + y / 400.

Definition days_before_month (y m : Z) : Z :=
  nth (Z.to_nat m) [0; 0; 31; 59; 90; 120; 151; 181; 212; 243; 273; 304; 334] 0
  + (if (2 <? m) && is_leap y then 1 else 0).

Definition toordinal (d : date) : Z :=
  days_before_year (year d) + days_before_month (year d) (month d) + day d.

(** Monday is 0 and Friday is 4. *)
Definition weekday (d : date) : Z := (toordinal d + 6) mod 7.

End Calendar.

(** ** The attendance table *)

(** A cell of the Date, In time or Out time column: what the sheet held,
    or what the coercion left there. *)
Inductive cell : Type :=
  | CValue (v : value)
  | CTimestamp (t : timestamp)
  | CTime (t : time)
  | CNaT.

(** One row of a sheet that has the five columns the engine names,
    [Employee ID], [Employee Name], [Date], [In time] and [Out time]; on
    a sheet without one of them the engine raises [KeyError] at line 26
    to 28 or 36 to 37, and such a sheet is no table here.  An employee id
    or name is a text, or [None] where the cell is empty; an hours column
    is [None] where the sheet has no such column; [other_columns] are the
    columns the engine never names. *)
Record attendance : Type := {
  employee_id : option string;
  employee_name : option string;
  date_cell : cell;
  in_time : cell;
  out_time : cell;
  total_working_hours : option value;
  extra_working_time : option value;
  other_columns : list (string * value);
}.

Abbreviation dataframe := (list attendance).

Definition set_date (r : attendance) (c : cell) : attendance :=
  {| employee_id := employee_id r; employee_name := employee_name r;
     date_cell := c; in_time := in_time r; out_time := out_time r;
     total_working_hours := total_working_hours r;
     extra_working_time := extra_working_time r;
     other_columns := other_columns r |}.

Definition set_in_time (r : attendance) (c : cell) : attendance :=
  {| employee_id := employee_id r; employee_name := employee_name r;
     date_cell := date_cell r; in_time := c; out_time := out_time r;
     total_working_hours := total_working_hours r;
     extra_working_time := extra_working_time r;
     other_columns := other_columns r |}.

Definition set_out_time (r : attendance) (c : cell) : attendance :=
  {| employee_id := employee_id r; employee_name := employee_name r;
     date_cell := date_cell r; in_time := in_time r; out_time := c;
     total_working_hours := total_working_hours r;
     extra_working_time := extra_working_time r;
     other_columns := other_columns r |}.

(** [df[col] = series]: row [i] takes the value the series has at [i], and
    the missing value where the series has none. *)
Definition assign {A : Type} (upd : attendance -> cell -> attendance)
    (conv : option A -> cell) (df : dataframe) (series : list (option A))
  : dataframe :=
  imap (fun i r => upd r (conv (mjoin (series !! i)))) df.

(** A coerced datetime as a cell, and its [.dt.time]. *)
Definition datetime_cell (o : option timestamp) : cell :=
  match o with
  | Some t => CTimestamp t
  | None => CNaT
  end.

Definition dt_time (o : option timestamp) : cell :=
  match o with
  | Some t => CTime (ts_time t)
  | None => CNaT
  end.

(** ** The rows of the two result tables *)

Record daily_pay_entry : Type := {
  e_employee_id : option string;
  e_employee_name : option string;
  e_date : option date;
  e_in_time : cell;
  e_out_time : cell;
  e_total_hours : float;
  e_extra_hours : float;
  e_daily_pay : float;
}.

Record monthly_total : Type := {
  m_employee_id : string;
  m_employee_name : string;
  m_total_hours : float;
  m_extra_hours : float;
  m_daily_pay : float;
  m_fixed_monthly_pay : Py.num;
  m_final_monthly_pay : float;
}.

(** [Timestamp.weekday()] is the weekday of the date; [NaT.weekday()] is
    NaN; anything else has no such method. *)
Definition cell_weekday (c : cell) : result Py.num :=
  match c with
  | CTimestamp t => Ok (Py.PInt (Calendar.weekday (ts_date t)))
  | CNaT => Ok (Py.PFloat nan)
  | _ => Raise AttributeError
  end.

(** [Timestamp.date()] is the date; [NaT.date()] is NaT. *)
Definition cell_date (c : cell) : result (option date) :=
  match c with
  | CTimestamp t => Ok (Some (ts_date t))
  | CNaT => Ok None
  | _ => Raise AttributeError
  end.

(** [d in holidays]: NaT equals no date. *)
Definition in_holidays (d : option date) (holidays : list date) : bool :=
  match d with
  | Some d => bool_decide (d ∈ holidays)
  | None => false
  end.

(** The pay of a row from its hours, as line 49 to 51 and 61 have it. *)
Definition pay (hw : float) (rest : bool) (total_hours extra_hours : float) : float :=
  Py.round2 (total_hours * hw * (if rest then 1.5 else 1)
             + extra_hours * hw)%float.

(** ** Grouping by employee *)

Abbreviation key := (string * string)%type.

(** The group key of a row; a row with an empty id or name has none, and
    [groupby] leaves it out. *)
Definition entry_key (e : daily_pay_entry) : option key :=
  match e_employee_id e, e_employee_name e with
  | Some i, Some n => Some (i, n)
  | _, _ => None
  end.

Definition key_leb (k1 k2 : key) : bool :=
  match String.compare (fst k1) (fst k2) with
  | Lt => true
  | Gt => false
  | Eq => String.leb (snd k1) (snd k2)
  end.

Definition key_le : relation key := fun k1 k2 => Is_true (key_leb k1 k2).

#[global] Instance key_le_dec : RelDecision key_le.
Proof. intros k1 k2. unfold key_le. apply _. Defined.

(** The keys of the groups, each once, in ascending order. *)
Definition group_keys (entries : list daily_pay_entry) : list key :=
  merge_sort key_le (remove_dups (omap entry_key entries)).

Definition group (k : key) (entries : list daily_pay_entry) : list daily_pay_entry :=
  filter (fun e => entry_key e = Some k) entries.

Definition monthly_key (m : monthly_total) : key :=
  (m_employee_id m, m_employee_name m).

Definition row_key (r : attendance) : option key :=
  match employee_id r, employee_name r with
  | Some i, Some n => Some (i, n)
  | _, _ => None
  end.

(** ** The wage engine *)

(** What [calculate_salary] returns. *)
Record report : Type := {
  breakdown_df : list daily_pay_entry;
  monthly_totals : list monthly_total;
  hourly_wage : float;
  daily_wage : float;
}.

(** The objects that outlive a call: the tables the caller holds, by
    reference, and the list that the default of [holidays] is bound to. *)
Record world : Type := {
  frames : gmap nat dataframe;
  default_holidays : list date;
}.

Section Engine.

(** [pd.to_datetime(series, errors="coerce")]: for each value the
    timestamp pandas reads in it, or [None] (NaT) where it reads none. *)
Variable to_datetime : list cell -> list (option timestamp).

(** The sum pandas takes of one column over one group, in row order. *)
Variable group_sum : list float -> float.

(** Lines 26 to 28: the three columns are overwritten in turn. *)
Definition coerce (df : dataframe) : dataframe :=
  let df := assign set_date datetime_cell df (to_datetime (date_cell <$> df)) in
  let df := assign set_in_time dt_time df (to_datetime (in_time <$> df)) in
  assign set_out_time dt_time df (to_datetime (out_time <$> df)).

(** Row [i] of the coerced table, from row [i] of the table. *)
Definition coerced_row (df : dataframe) (i : nat) (r : attendance) : attendance :=
  {| employee_id := employee_id r;
     employee_name := employee_name r;
     date_cell := datetime_cell (mjoin (to_datetime (date_cell <$> df) !! i));
     in_time := dt_time (mjoin (to_datetime (in_time <$> df) !! i));
     out_time := dt_time (mjoin (to_datetime (out_time <$> df) !! i));
     total_working_hours := total_working_hours r;
     extra_working_time := extra_working_time r;
     other_columns := other_columns r |}.

(** Lines 31 and 32. *)
Definition wage_rates (basic_salary allowance : Py.num) : result (float * float) :=
  total ← Py.add basic_salary allowance;
  yearly ← Py.mul_int total 12;
  daily_wage ← Py.truediv_int yearly 365;
  hourly_wage ← Py.float_truediv_int daily_wage 8;
  Ok (daily_wage, hourly_wage).

(** [date.weekday() == 4 or date.date() in holidays] *)
Definition rest_day (c : cell) (holidays : list date) : result bool :=
  wd ← cell_weekday c;
  if Py.num_eq_int wd 4 then Ok true
  else
    d ← cell_date c;
    Ok (in_holidays d holidays).

Definition multiplier (rest : bool) : Py.num :=
  if rest then Py.PFloat 1.5 else Py.PInt 1.

(** The body of the loop, lines 36 to 62. *)
Definition daily_entry (hourly_wage : float) (holidays : list date)
    (row : attendance) : result daily_pay_entry :=
  let emp_id := employee_id row in
  let emp_name := employee_name row in
  let c := date_cell row in
  total_hours ← parse_hours (default (VInt 0) (total_working_hours row));
  extra_hours ← parse_hours (default (VInt 0) (extra_working_time row));
  rest ← rest_day c holidays;
  normal_pay ← Py.float_mul_num (total_hours * hourly_wage) (multiplier rest);
  let extra_pay := (extra_hours * hourly_wage)%float in
  let total_pay := (normal_pay + extra_pay)%float in
  d ← cell_date c;
  Ok {| e_employee_id := emp_id;
        e_employee_name := emp_name;
        e_date := d;
        e_in_time := in_time row;
        e_out_time := out_time row;
        e_total_hours := total_hours;
        e_extra_hours := extra_hours;
        e_daily_pay := Py.round2 total_pay |}.

(** One row of the monthly totals, lines 67 to 77, for the group of [k]. *)
Definition monthly_row (entries : list daily_pay_entry) (fixed : Py.num)
    (k : key) : result monthly_total :=
  let rows := group k entries in
  let daily_pay := group_sum (e_daily_pay <$> rows) in
  final ← Py.float_add_num daily_pay fixed;
  Ok {| m_employee_id := fst k;
        m_employee_name := snd k;
        m_total_hours := group_sum (e_total_hours <$> rows);
        m_extra_hours := group_sum (e_extra_hours <$> rows);
        m_daily_pay := daily_pay;
        m_fixed_monthly_pay := fixed;
        m_final_monthly_pay := final |}.

(** A table built from no rows has no columns, and grouping it by the
    employee columns is a [KeyError]. *)
Definition monthly (entries : list daily_pay_entry)
    (basic_salary allowance : Py.num) : result (list monthly_total) :=
  match entries with
  | [] => Raise KeyError
  | _ =>
      fixed ← Py.add basic_salary allowance;
      for_each (monthly_row entries fixed) (group_keys entries)
  end.

(** Lines 30 to 79, on the coerced table. *)
Definition pay_of_table (df : dataframe) (basic_salary allowance : Py.num)
    (holidays : list date) : result report :=
  '(daily_wage, hourly_wage) ← wage_rates basic_salary allowance;
  results ← for_each (daily_entry hourly_wage holidays) df;
  totals ← monthly results basic_salary allowance;
  Ok {| breakdown_df := results;
        monthly_totals := totals;
        hourly_wage := hourly_wage;
        daily_wage := daily_wage |}.

(** [calculate_salary(df, basic_salary, allowance, holidays)], where [df]
    refers to a table of the world and [holidays] is [None] when the
    caller leaves it out.  The table is coerced in place before anything
    else is computed.  A reference to no table does not occur in Python;
    it is answered here by [KeyError]. *)
Definition calculate_salary (w : world) (df : nat)
    (basic_salary allowance : Py.num) (holidays : option (list date))
  : world * result report :=
  match frames w !! df with
  | None => (w, Raise KeyError)
  | Some rows =>
      let rows := coerce rows in
      let w := {| frames := <[df := rows]> (frames w);
                  default_holidays := default_holidays w |} in
      (w, pay_of_table rows basic_salary allowance
            (default (default_holidays w) holidays))
  end.

End Engine.

(** ** Numbers in range

    The only exceptions of the engine are those of the arithmetic, an
    integer too large for a double among the hours or in the salary, and
    the [KeyError] of a table with no rows. *)

Definition fits_double (z : Z) : bool := negb (is_infinity (Py.float_of_Z z)).

Definition readable (v : option value) : bool :=
  match v with
  | Some (VInt z) => fits_double z
  | _ => true
  end.

(** A value whose text, if it is one, is over ASCII. *)
Definition ascii_value (v : value) : bool :=
  match v with
  | VStr s => Text.ascii_only (list_ascii_of_string s)
  | _ => true
  end.

Definition hours_readable (r : attendance) : bool :=
  readable (total_working_hours r) && readable (extra_working_time r).

Definition salary_in_range (b a : Py.num) : bool :=
  is_ok (wage_rates b a) && is_ok (Py.add b a ≫= Py.to_float).

(** Doubles that are not below zero: the zeros, the positive finite
    doubles and plus infinity. *)
Definition nonneg_sf (x : spec_float) : bool :=
  match x with
  | S754_zero _ => true
  | S754_infinity s => negb s
  | S754_nan => false
  | S754_finite s _ _ => negb s
  end.

(** A double that is not below zero. *)
Definition nonneg (x : float) : Prop := nonneg_sf (Prim2SF x) = true.

(** ** The application

    [main] reads the sheet, the salary and the holidays from the page and
    displays what [calculate_salary] returns. *)

Section App.

(** [datetime.date.fromisoformat]: the date a text spells, or
    [ValueError]; the texts it accepts depend on the version of Python. *)
Variable fromisoformat : Text.text -> result date.

Variable to_datetime : list cell -> list (option timestamp).
Variable group_sum : list float -> float.

(** Lines 95 to 98: the holidays typed in the text box. *)
Definition holidays_of_input (holidays_input : Text.text) : result (list date) :=
  match holidays_input with
  | [] => Ok []
  | _ =>
      for_each (fun d => fromisoformat (Text.strip d))
        (filter (fun d => Text.strip d <> []) (Text.split "," holidays_input))
  end.

(** [main()], lines 82 to 114, as a function of what the user enters: the
    uploaded sheet as [pd.read_excel] returns it, or [None] before any
    upload, the two integers of the number inputs and the text of the text
    box.  [pd.read_excel] makes a new table on every run.  The result is
    the report that is displayed, or [None] when nothing is displayed. *)
Definition main (w : world) (uploaded_file : option dataframe)
    (basic_salary allowance : Z) (holidays_input : Text.text)
  : world * result (option report) :=
  match uploaded_file with
  | Some sheet =>
      if 0 <? basic_salary then
        let df := fresh (dom (frames w)) in
        let w := {| frames := <[df := sheet]> (frames w);
                    default_holidays := default_holidays w |} in
        match holidays_of_input holidays_input with
        | Ok holidays =>
            let (w, r) := calculate_salary to_datetime group_sum w df
                            (Py.PInt basic_salary) (Py.PInt allowance)
                            (Some holidays) in
            (w, Some <$> r)
        | Raise e => (w, Raise e)
        end
      else (w, Ok None)
  | None => (w, Ok None)
  end.

End App.

(** ** Characters, zeros and tables read twice *)

(** The characters that a number as [int] and [float] read it can be
    made of, the colon of [HH:MM], and the white space that is stripped.
    A character beyond ASCII is counted among them: Python knows digits
    and spaces there that this development does not read. *)
Definition number_chars : Text.text :=
  list_ascii_of_string "0123456789_.eE+-:infatyINFATY".

Definition number_char (c : ascii) : bool :=
  Text.is_space c || Text.contains c number_chars || (128 <=? N_of_ascii c)%N.

(** A digit or the underscore that may stand between two digits. *)
Definition digit_char (c : ascii) : bool :=
  bool_decide (Text.digit_val c <> None) || Text.is_char "_" c.

(** A zero of either sign. *)
Definition zero_sf (x : spec_float) : bool :=
  match x with
  | S754_zero _ => true
  | _ => false
  end.

(** A double that is not below zero, or NaN. *)
Definition nonneg_or_nan (x : spec_float) : bool :=
  match x with
  | S754_nan => true
  | _ => nonneg_sf x
  end.

(** What pandas reads in a column that the coercion itself wrote: a
    column of timestamps and NaT is returned as it is, and a column of
    times of day and NaT holds no datetime at all. *)
Definition reads_back (to_datetime : list cell -> list (option timestamp)) : Prop :=
  (forall col,
      Forall (fun c => c = CNaT \/ exists t, c = CTimestamp t) col ->
      to_datetime col
      = (fun c => match c with CTimestamp t => Some t | _ => None end) <$> col)
  /\ (forall col,
        Forall (fun c => c = CNaT \/ exists t, c = CTime t) col ->
        to_datetime col = (fun _ => None) <$> col).

(** A row, an entry and a report without the times of arrival and
    departure. *)
Definition blank_times (r : attendance) : attendance :=
  set_out_time (set_in_time r CNaT) CNaT.

Definition forget_times (e : daily_pay_entry) : daily_pay_entry :=
  {| e_employee_id := e_employee_id e; e_employee_name := e_employee_name e;
     e_date := e_date e; e_in_time := CNaT; e_out_time := CNaT;
     e_total_hours := e_total_hours e; e_extra_hours := e_extra_hours e;
     e_daily_pay := e_daily_pay e |}.

Definition forget_report_times (rep : report) : report :=
  {| breakdown_df := forget_times <$> breakdown_df rep;
     monthly_totals := monthly_totals rep;
     hourly_wage := hourly_wage rep;
     daily_wage := daily_wage rep |}.

(** ** Sample data *)

Module Sample.

(** A coercion that agrees with pandas on the cells used below: a
    timestamp is kept; an empty cell, text that is no date and a time of
    day, which is no datetime, are NaT. *)
Definition to_datetime (col : list cell) : list (option timestamp) :=
  (fun c => match c with CTimestamp t => Some t | _ => None end) <$> col.

(** The plain sum from left to right. *)
Definition group_sum (xs : list float) : float :=
  foldl (fun acc x => (acc + x)%float) 0%float xs.

Definition at_ (y m d hh mm : Z) : cell :=
  CTimestamp {| ts_date := {| year := y; month := m; day := d |};
                ts_time := {| hour := hh; minute := mm; second := 0;
                              microsecond := 0 |} |}.

Definition row (i n : string) (d t_in t_out : cell) (total extra : value)
  : attendance :=
  {| employee_id := Some i; employee_name := Some n;
     date_cell := d; in_time := t_in; out_time := t_out;
     total_working_hours := Some total; extra_working_time := Some extra;
     other_columns := [("Department"%string, VStr "Stores")] |}.

(** 2024-01-04 is a Thursday and 2024-01-05 a Friday. *)
Definition sheet : dataframe :=
  [ row "E1" "Asha" (at_ 2024 1 4 0 0) (at_ 2024 1 4 9 0) (at_ 2024 1 4 17 0)
        (VInt 8) (VInt 0);
    row "E1" "Asha" (at_ 2024 1 5 0 0) (at_ 2024 1 5 9 0) (at_ 2024 1 5 17 0)
        (VInt 8) (VInt 0);
    row "E2" "Bilal" (CValue (VStr "not a date")) (CValue VNull) (CValue VNull)
        (VStr "8:30") (VFloat 1.5) ].

Definition w0 : world :=
  {| frames := {[ 0%nat := sheet ]}; default_holidays := [] |}.

Definition run (w : world) (df : nat) (b a : Z) (h : option (list date))
  : world * result report :=
  calculate_salary to_datetime group_sum w df (Py.PInt b) (Py.PInt a) h.

Definition no_report : report :=
  {| breakdown_df := []; monthly_totals := []; hourly_wage := nan; daily_wage := nan |}.

(** The report for a basic salary of 30000 and an allowance of 5000. *)
Definition report_35000 : report :=
  except_all (snd (run w0 0 30000 5000 None)) no_report.

(** A sheet whose last record has an id and no name. *)
Definition unnamed : attendance :=
  {| employee_id := Some "E3"%string; employee_name := None;
     date_cell := at_ 2024 1 4 0 0; in_time := at_ 2024 1 4 9 0;
     out_time := at_ 2024 1 4 17 0;
     total_working_hours := Some (VInt 8); extra_working_time := Some (VInt 0);
     other_columns := [] |}.

Definition w_unnamed : world :=
  {| frames := {[ 0%nat := sheet ++ [unnamed] ]}; default_holidays := [] |}.

(** The same sheet held twice, as two tables. *)
Definition w_two : world :=
  {| frames := {[ 0%nat := sheet; 1%nat := sheet ]}; default_holidays := [] |}.


(** A table with no rows, a sheet whose only record has no name, and a
    sheet without the two hours columns. *)
Definition w_empty : world :=
  {| frames := {[ 0%nat := [] ]}; default_holidays := [] |}.


Definition bare (i n : string) (d : cell) : attendance :=
  {| employee_id := Some i; employee_name := Some n;
     date_cell := d; in_time := CValue VNull; out_time := CValue VNull;
     total_working_hours := None; extra_working_time := None;
     other_columns := [] |}.

Definition bare_sheet : dataframe :=
  [ bare "E1" "Asha" (at_ 2024 1 4 0 0); bare "E1" "Asha" (at_ 2024 1 5 0 0) ].

Definition w_bare : world :=
  {| frames := {[ 0%nat := bare_sheet ]}; default_holidays := [] |}.

Definition report_bare : report :=
  except_all (snd (run w_bare 0 30000 5000 None)) no_report.

(** A reader of [YYYY-MM-DD] that agrees with [date.fromisoformat] on the
    texts used below. *)
Definition fromisoformat (t : Text.text) : result date :=
  match Text.split "-" t with
  | [y; m; d] =>
      match Text.digits y, Text.digits m, Text.digits d with
      | Some (y, 4%nat), Some (m, 2%nat), Some (d, 2%nat) =>
          Ok {| year := y; month := m; day := d |}
      | _, _, _ => Raise ValueError
      end
  | _ => Raise ValueError
  end.

(** One run of the application on the sheet, with 2024-01-04 typed as a
    holiday. *)
Definition app (w : world) (holidays_input : string)
  : world * result (option report) :=
  main fromisoformat to_datetime group_sum w (Some sheet) 30000 5000
    (list_ascii_of_string holidays_input).

Definition report_app : report :=
  default no_report (except_all (snd (app w0 " 2024-01-04, ")) None).

(** The report of the sheet with the sum that pandas takes. *)
Definition report_pandas : report :=
  except_all
    (snd (calculate_salary to_datetime Pandas.group_sum w0 0
            (Py.PInt 30000) (Py.PInt 5000) None))
    no_report.



End Sample.

(** * Properties *)

(** ** Facts of float arithmetic *)

Module FloatFacts.

Lemma SFadd_comm (x y : spec_float) : SFadd prec emax x y = SFadd prec emax y x.
Proof.
  destruct x as [[]|[]| |sx mx ex], y as [[]|[]| |sy my ey]; try reflexivity.
  unfold SFadd. rewrite (Z.min_comm ey ex), Z.add_comm. reflexivity.
Qed.

Lemma add_comm (x y : float) : (x + y)%float = (y + x)%float.
Proof.
  rewrite <- (SF2Prim_Prim2SF (x + y)), <- (SF2Prim_Prim2SF (y + x)).
  rewrite !add_spec. unfold SF64add. now rewrite SFadd_comm.
Qed.

(** Multiplying a valid double by one changes nothing: the product of
    the mantissas is shifted back by the 52 bits of the mantissa of one,
    exactly. *)
Lemma SFmul_one (x : spec_float) :
  valid_binary x = true ->
  SFmul prec emax x (S754_finite false 4503599627370496 (-52)) = x.
Proof.
  destruct x as [[]|[]| |sx mx ex]; try reflexivity.
  intros Hv. unfold SpecFloat.valid_binary, bounded, canonical_mantissa in Hv.
  apply andb_prop in Hv. destruct Hv as [Hc Hb].
  apply Z.eqb_eq in Hc.
  unfold SFmul. rewrite xorb_false_r.
  rewrite !Pos.mul_xO_r, Pos.mul_1_r.
  unfold binary_round_aux, shr_fexp.
  cbn [Zdigits2 digits2_pos].
  rewrite !Pos2Z.inj_succ.
  set (d := Zpos (digits2_pos mx)) in *.
  match goal with
  | |- context [(fexp prec emax ?a - ?b)%Z] =>
      replace (fexp prec emax a - b) with 52
        by (unfold fexp, SpecFloat.emin in *; lia)
  end.
  cbn -[fexp Z.sub Z.add Z.leb emax prec].
  replace (ex + -52 + 52) with ex by lia.
  fold d. rewrite Hc, Z.sub_diag. cbn -[Z.leb Z.sub emax prec].
  rewrite Hb. reflexivity.
Qed.

Lemma mul_one (x : float) : (x * 1)%float = x.
Proof.
  rewrite <- (SF2Prim_Prim2SF (x * 1)), mul_spec.
  change (Prim2SF 1) with (S754_finite false 4503599627370496 (-52)).
  unfold SF64mul. rewrite SFmul_one by apply Prim2SF_valid.
  apply SF2Prim_Prim2SF.
Qed.

(** *** The sign of a result

    Rounding never looks at the sign, so the conversions commute with
    negation. *)

Lemma binary_round_aux_opp (s : bool) (m e : Z) (l : location) :
  binary_round_aux prec emax (negb s) m e l
  = SFopp (binary_round_aux prec emax s m e l).
Proof.
  unfold binary_round_aux.
  destruct (shr_fexp prec emax m e l) as [mrs' e'].
  destruct (shr_fexp prec emax _ e' loc_Exact) as [mrs'' e''].
  destruct (shr_m mrs''); try reflexivity.
  destruct (e'' <=? emax - prec); reflexivity.
Qed.

Lemma binary_round_opp (s : bool) (m : positive) (e : Z) :
  binary_round prec emax (negb s) m e = SFopp (binary_round prec emax s m e).
Proof.
  unfold binary_round. destruct (shl_align _ _ _) as [mz ez].
  apply binary_round_aux_opp.
Qed.

Lemma SFopp_involutive (x : spec_float) : SFopp (SFopp x) = x.
Proof. destruct x as [s|s| |s m e]; cbn; rewrite ?negb_involutive; reflexivity. Qed.

Lemma opp_involutive (x : float) : (- - x)%float = x.
Proof.
  rewrite <- (SF2Prim_Prim2SF (- - x)), !opp_spec, SFopp_involutive.
  apply SF2Prim_Prim2SF.
Qed.

Lemma SF2Prim_opp (x : spec_float) : SF2Prim (SFopp x) = (- SF2Prim x)%float.
Proof.
  destruct x as [[]|[]| |[] m e]; try reflexivity.
  cbn [SFopp negb SF2Prim]. symmetry. apply opp_involutive.
Qed.

Lemma is_infinity_opp (x : float) : is_infinity (- x) = is_infinity x.
Proof.
  unfold is_infinity. f_equal.
  rewrite <- (SF2Prim_Prim2SF (abs (- x))), <- (SF2Prim_Prim2SF (abs x)).
  rewrite !abs_spec, opp_spec. f_equal.
  destruct (Prim2SF x); reflexivity.
Qed.

Lemma float_of_Z_opp (z : Z) :
  z <> 0 -> Py.float_of_Z (- z) = (- Py.float_of_Z z)%float.
Proof.
  intros Hz. unfold Py.float_of_Z. rewrite <- SF2Prim_opp. f_equal.
  destruct z as [|p|p]; [congruence| |].
  - change (- Z.pos p) with (Z.neg p). apply (binary_round_opp false).
  - change (- Z.neg p) with (Z.pos p). unfold binary_normalize.
    rewrite (binary_round_opp false), SFopp_involutive. reflexivity.
Qed.

Lemma SFdiv_opp (s : bool) (p : positive) (y : spec_float) :
  SFdiv prec emax (S754_finite (negb s) p 0) y
  = SFopp (SFdiv prec emax (S754_finite s p 0) y).
Proof.
  destruct y as [sd|sd| |sd md ed]; unfold SFdiv.
  - destruct s, sd; reflexivity.
  - destruct s, sd; reflexivity.
  - reflexivity.
  - destruct (SFdiv_core_binary _ _ _ _ _ _) as [[mz ez] lz].
    rewrite <- binary_round_aux_opp. destruct s, sd; reflexivity.
Qed.

Lemma int_quotient_opp (n d : Z) :
  n <> 0 -> Py.int_quotient (- n) d = (- Py.int_quotient n d)%float.
Proof.
  intros Hn. unfold Py.int_quotient. rewrite <- SF2Prim_opp. f_equal.
  destruct n as [|p|p]; [congruence| |].
  - apply (SFdiv_opp false).
  - change (Py.Z2SF (- Z.neg p)) with (S754_finite false p 0).
    change (Py.Z2SF (Z.neg p)) with (S754_finite (negb false) p 0).
    rewrite SFdiv_opp, SFopp_involutive. reflexivity.
Qed.

Lemma fits_opp (z : Z) :
  is_infinity (Py.float_of_Z (- z)) = is_infinity (Py.float_of_Z z).
Proof.
  destruct (Z.eq_dec z 0) as [->|Hz]; [reflexivity|].
  rewrite float_of_Z_opp by assumption. apply is_infinity_opp.
Qed.

Lemma quotient_fits_opp (n d : Z) :
  is_infinity (Py.int_quotient (- n) d) = is_infinity (Py.int_quotient n d).
Proof.
  destruct (Z.eq_dec n 0) as [->|Hn]; [reflexivity|].
  rewrite int_quotient_opp by assumption. apply is_infinity_opp.
Qed.

(** *** Results that are not below zero *)

Lemma iter_pos_invariant {A : Type} (P : A -> Prop) (f : A -> A) (n : positive) :
  (forall x, P x -> P (f x)) -> forall x, P x -> P (SpecFloat.iter_pos f n x).
Proof.
  intros Hf. induction n as [n IH|n IH|]; intros x Hx; cbn; auto.
Qed.

Lemma shr_1_nonneg (mrs : shr_record) : 0 <= shr_m mrs -> 0 <= shr_m (shr_1 mrs).
Proof.
  destruct mrs as [m r s]. cbn. destruct m as [|[p|p|]|p]; cbn; lia.
Qed.

Lemma shr_fexp_nonneg (m e : Z) (l : location) :
  0 <= m -> 0 <= shr_m (fst (shr_fexp prec emax m e l)).
Proof.
  intros Hm. unfold shr_fexp, shr.
  assert (0 <= shr_m (shr_record_of_loc m l)) as H0
    by (destruct l as [|[]]; exact Hm).
  destruct (fexp prec emax (Zdigits2 m + e) - e); cbn [fst]; auto.
  apply (iter_pos_invariant (fun x => 0 <= shr_m x)); auto using shr_1_nonneg.
Qed.

Lemma round_nearest_even_nonneg (m : Z) (l : location) :
  0 <= m -> 0 <= round_nearest_even m l.
Proof.
  intros Hm. destruct l as [|[]]; unfold round_nearest_even;
    try destruct (Z.even m); lia.
Qed.

Lemma binary_round_aux_nonneg (m e : Z) (l : location) :
  0 <= m -> nonneg_sf (binary_round_aux prec emax false m e l) = true.
Proof.
  intros Hm. unfold binary_round_aux.
  pose proof (shr_fexp_nonneg m e l Hm) as H1.
  destruct (shr_fexp prec emax m e l) as [mrs' e']. cbn [fst] in H1.
  pose proof (shr_fexp_nonneg _ e' loc_Exact
                (round_nearest_even_nonneg _ (loc_of_shr_record mrs') H1)) as H2.
  destruct (shr_fexp prec emax _ e' loc_Exact) as [mrs'' e'']. cbn [fst] in H2.
  destruct (shr_m mrs''); [reflexivity| |lia].
  destruct (e'' <=? emax - prec); reflexivity.
Qed.

Lemma binary_round_nonneg (m : positive) (e : Z) :
  nonneg_sf (binary_round prec emax false m e) = true.
Proof.
  unfold binary_round. destruct (shl_align _ _ _) as [mz ez].
  apply binary_round_aux_nonneg. lia.
Qed.

Lemma binary_normalize_nonneg (z e : Z) :
  0 <= z -> nonneg_sf (binary_normalize prec emax z e false) = true.
Proof.
  destruct z; [reflexivity| |lia]. intros _. apply binary_round_nonneg.
Qed.

Lemma SFldexp_nonneg (x : spec_float) (e : Z) :
  nonneg_sf x = true -> nonneg_sf (SFldexp prec emax x e) = true.
Proof.
  destruct x as [s|s| |[] m e']; cbn; try congruence.
  intros _. apply binary_round_nonneg.
Qed.

Lemma Prim2SF_SF2Prim_nonneg (x : spec_float) :
  nonneg_sf x = true -> nonneg_sf (Prim2SF (SF2Prim x)) = true.
Proof.
  destruct x as [[]|[]| |[] m e]; try reflexivity; try discriminate.
  intros _. cbn [SF2Prim]. rewrite Z_ldexp_spec. apply SFldexp_nonneg.
  rewrite of_uint63_spec. apply binary_normalize_nonneg.
  apply Uint63.to_Z_bounded.
Qed.

Lemma leb_zero_nonneg (x : float) :
  nonneg_sf (Prim2SF x) = true -> (0 <=? x)%float = true.
Proof.
  rewrite leb_spec. change (Prim2SF 0) with (S754_zero false).
  destruct (Prim2SF x) as [s|[]| |[] m e]; cbn; congruence.
Qed.

Lemma float_of_Z_nonneg (z : Z) : 0 <= z -> (0 <=? Py.float_of_Z z)%float = true.
Proof.
  intros Hz. apply leb_zero_nonneg. unfold Py.float_of_Z.
  apply Prim2SF_SF2Prim_nonneg, binary_normalize_nonneg, Hz.
Qed.

Lemma nonneg_leb (x : float) : nonneg x -> (0 <=? x)%float = true.
Proof. apply leb_zero_nonneg. Qed.

Lemma nonneg_SF2Prim (x : spec_float) : nonneg_sf x = true -> nonneg (SF2Prim x).
Proof. apply Prim2SF_SF2Prim_nonneg. Qed.

Lemma SFdiv_core_nonneg (m1 e1 m2 e2 : Z) :
  0 <= m1 -> 0 < m2 ->
  0 <= fst (fst (SFdiv_core_binary prec emax m1 e1 m2 e2)).
Proof.
  intros H1 H2. unfold SFdiv_core_binary.
  set (s := Z.min _ _ ). set (k := e1 - e2 - s).
  set (m' := match k with Z.pos _ => Z.shiftl m1 k | 0 => m1 | Z.neg _ => 0 end).
  assert (0 <= m') as Hm'.
  { subst m'. destruct k; [assumption| |lia]. apply Z.shiftl_nonneg. assumption. }
  pose proof (Z.div_eucl_eq m' m2 ltac:(lia)) as Heq.
  pose proof (Z.mod_pos_bound m' m2 H2) as Hmod.
  unfold Z.modulo in Hmod.
  destruct (Z.div_eucl m' m2) as [q r]. cbn [fst]. nia.
Qed.

Lemma SFdiv_nonneg (m1 m2 : positive) (e1 e2 : Z) :
  nonneg_sf (SFdiv prec emax (S754_finite false m1 e1) (S754_finite false m2 e2)) = true.
Proof.
  unfold SFdiv.
  pose proof (SFdiv_core_nonneg (Z.pos m1) e1 (Z.pos m2) e2 ltac:(lia) ltac:(lia)) as H.
  destruct (SFdiv_core_binary _ _ _ _ _ _) as [[mz ez] lz]. cbn [fst] in H.
  apply binary_round_aux_nonneg, H.
Qed.

Lemma int_quotient_nonneg (a b : Z) : 0 <= a -> 0 < b -> nonneg (Py.int_quotient a b).
Proof.
  intros Ha Hb. apply nonneg_SF2Prim.
  destruct b as [|b|b]; try lia. destruct a as [|a|a]; try lia.
  - reflexivity.
  - apply SFdiv_nonneg.
Qed.

Lemma SFadd_nonneg (x y : spec_float) :
  nonneg_sf x = true -> nonneg_sf y = true -> nonneg_sf (SFadd prec emax x y) = true.
Proof.
  destruct x as [[]|[]| |[] mx ex], y as [[]|[]| |[] my ey];
    cbn [nonneg_sf negb]; try discriminate; try reflexivity.
  intros _ _. unfold SFadd, cond_Zopp.
  apply binary_normalize_nonneg. lia.
Qed.

Lemma add_nonneg (x y : float) : nonneg x -> nonneg y -> nonneg (x + y).
Proof. unfold nonneg. rewrite add_spec. apply SFadd_nonneg. Qed.

Lemma float_of_Z_nonneg_sf (z : Z) : 0 <= z -> nonneg (Py.float_of_Z z).
Proof. intros Hz. apply nonneg_SF2Prim, binary_normalize_nonneg, Hz. Qed.

(** The opposite of a double that is not below zero is not above zero. *)
Lemma opp_nonneg_leb (x : float) : nonneg x -> (- x <=? 0)%float = true.
Proof.
  unfold nonneg. rewrite leb_spec, opp_spec.
  change (Prim2SF 0) with (S754_zero false).
  destruct (Prim2SF x) as [s|[]| |[] m e]; cbn; congruence.
Qed.

End FloatFacts.

(** ** Exceptions and loops *)

Lemma for_each_Forall2 {A B : Type} (f : A -> result B) (l : list A) (ys : list B) :
  for_each f l = Ok ys <-> Forall2 (fun x y => f x = Ok y) l ys.
Proof.
  revert ys. induction l as [|x l IH]; intros ys; cbn.
  - split.
    + intros [= <-]. constructor.
    + intros H. inversion H. reflexivity.
  - split.
    + intros H. destruct (f x) as [y|] eqn:Ey; [cbn in H|discriminate].
      destruct (for_each f l) as [ys'|] eqn:El; [cbn in H|discriminate].
      injection H as <-. constructor; [assumption|]. apply IH. reflexivity.
    + intros H. inversion H as [|x' y l' ys' Hy Hl]; subst.
      rewrite Hy. cbn. apply IH in Hl. rewrite Hl. reflexivity.
Qed.

Lemma for_each_length {A B : Type} (f : A -> result B) (l : list A) (ys : list B) :
  for_each f l = Ok ys -> length ys = length l.
Proof.
  intros H. apply for_each_Forall2 in H. symmetry. eapply Forall2_length, H.
Qed.

Lemma for_each_lookup {A B : Type} (f : A -> result B) (l : list A) (ys : list B)
    (i : nat) (y : B) :
  for_each f l = Ok ys -> ys !! i = Some y ->
  exists x, l !! i = Some x /\ f x = Ok y.
Proof.
  intros H Hy. apply for_each_Forall2 in H.
  destruct (Forall2_lookup_r _ _ _ _ _ H Hy) as (x & Hx & Hf). eauto.
Qed.

Lemma for_each_elem_of {A B : Type} (f : A -> result B) (l : list A) (ys : list B)
    (y : B) :
  for_each f l = Ok ys -> y ∈ ys -> exists x, x ∈ l /\ f x = Ok y.
Proof.
  intros H Hy. apply list_elem_of_lookup in Hy as [i Hi].
  destruct (for_each_lookup _ _ _ _ _ H Hi) as (x & Hx & Hf).
  exists x. split; [|assumption]. eapply list_elem_of_lookup_2, Hx.
Qed.

Lemma for_each_total {A B : Type} (f : A -> result B) (l : list A) :
  Forall (fun x => exists y, f x = Ok y) l -> exists ys, for_each f l = Ok ys.
Proof.
  induction 1 as [|x l [y Hy] _ [ys Hys]]; cbn.
  - eauto.
  - rewrite Hy. cbn. rewrite Hys. cbn. eauto.
Qed.

Lemma for_each_raise {A B : Type} (f : A -> result B) (l : list A) (e : exn) :
  for_each f l = Raise e -> exists x, x ∈ l /\ f x = Raise e.
Proof.
  induction l as [|x l IH]; cbn; [discriminate|].
  destruct (f x) as [y|e'] eqn:Ex; cbn.
  - destruct (for_each f l) as [ys|e'']; cbn; [discriminate|].
    intros [= <-]. destruct (IH eq_refl) as (x' & Hin & Hx').
    exists x'. split; [apply list_elem_of_further, Hin|exact Hx'].
  - intros [= <-]. exists x. split; [apply list_elem_of_here|exact Ex].
Qed.

(** ** The exceptions of the arithmetic *)

Lemma float_of_int_raise (z : Z) (e : exn) :
  Py.float_of_int z = Raise e -> e = OverflowError.
Proof.
  unfold Py.float_of_int. destruct (is_infinity (Py.float_of_Z z)); congruence.
Qed.

Lemma int_truediv_raise (a b : Z) (e : exn) :
  b <> 0 -> Py.int_truediv a b = Raise e -> e = OverflowError.
Proof.
  intros Hb. unfold Py.int_truediv.
  destruct (Z.eqb_spec b 0) as [|_]; [contradiction|].
  destruct (is_infinity (Py.int_quotient a b)); congruence.
Qed.

Lemma add_raise (a b : Py.num) (e : exn) :
  Py.add a b = Raise e -> e = OverflowError.
Proof.
  destruct a as [x|x], b as [y|y]; cbn; try discriminate.
  - unfold Py.int_add_float.
    destruct (Py.float_of_int x) eqn:E; cbn; [discriminate|].
    intros [= <-]. eapply float_of_int_raise, E.
  - unfold Py.float_add_int.
    destruct (Py.float_of_int y) eqn:E; cbn; [discriminate|].
    intros [= <-]. eapply float_of_int_raise, E.
Qed.

Lemma float_add_num_raise (x : float) (n : Py.num) (e : exn) :
  Py.float_add_num x n = Raise e -> e = OverflowError.
Proof.
  destruct n as [z|y]; cbn; [|discriminate].
  unfold Py.float_add_int.
  destruct (Py.float_of_int z) eqn:E; cbn; [discriminate|].
  intros [= <-]. eapply float_of_int_raise, E.
Qed.

Lemma parse_hours_raise (v : value) (e : exn) :
  parse_hours v = Raise e -> e = OverflowError.
Proof.
  unfold parse_hours. destruct (pd_isna v); [discriminate|].
  destruct v; try discriminate. apply float_of_int_raise.
Qed.

Lemma wage_rates_raise (b a : Py.num) (e : exn) :
  wage_rates b a = Raise e -> e = OverflowError.
Proof.
  unfold wage_rates.
  destruct (Py.add b a) as [total|e'] eqn:Ea; cbn;
    [|intros [= <-]; eapply add_raise, Ea].
  destruct total as [x|x]; cbn [Py.mul_int Py.truediv_int mbind result_bind].
  - destruct (Py.int_truediv (x * 12) 365) as [dw|e'] eqn:Ed; cbn.
    + change (Py.float_truediv_int dw 8) with (Ok (dw / 8)%float). discriminate.
    + intros [= <-]. eapply int_truediv_raise, Ed. discriminate.
  - change (Py.float_mul_int x 12) with (Ok (x * 12)%float). cbn.
    change (Py.float_truediv_int (x * 12) 365) with (Ok (x * 12 / 365)%float). cbn.
    change (Py.float_truediv_int (x * 12 / 365) 8)
      with (Ok (x * 12 / 365 / 8)%float).
    discriminate.
Qed.

(** ** The coercion of the table *)

Section Coercion.

Variable to_datetime : list cell -> list (option timestamp).

Lemma assign_lookup {A : Type} (upd : attendance -> cell -> attendance)
    (conv : option A -> cell) (df : dataframe) (series : list (option A)) (i : nat) :
  assign upd conv df series !! i
  = (fun r => upd r (conv (mjoin (series !! i)))) <$> df !! i.
Proof. unfold assign. apply list_lookup_imap. Qed.

Lemma assign_column {A B : Type} (upd : attendance -> cell -> attendance)
    (conv : option A -> cell) (proj : attendance -> B)
    (df : dataframe) (series : list (option A)) :
  (forall r c, proj (upd r c) = proj r) ->
  proj <$> assign upd conv df series = proj <$> df.
Proof.
  intros Hp. apply list_eq. intros i.
  rewrite !list_lookup_fmap, assign_lookup.
  destruct (df !! i); cbn; [rewrite Hp|]; reflexivity.
Qed.

Lemma coerce_lookup (df : dataframe) (i : nat) :
  coerce to_datetime df !! i = coerced_row to_datetime df i <$> df !! i.
Proof.
  unfold coerce. rewrite assign_lookup.
  rewrite (assign_column set_in_time dt_time out_time) by reflexivity.
  rewrite (assign_column set_date datetime_cell out_time) by reflexivity.
  rewrite assign_lookup.
  rewrite (assign_column set_date datetime_cell in_time) by reflexivity.
  rewrite assign_lookup.
  destruct (df !! i); reflexivity.
Qed.

Lemma coerce_length (df : dataframe) : length (coerce to_datetime df) = length df.
Proof. unfold coerce, assign. rewrite !length_imap. reflexivity. Qed.

(** After the coercion a Date cell is a timestamp or NaT. *)
Lemma coerced_date (df : dataframe) (i : nat) (r : attendance) :
  coerce to_datetime df !! i = Some r ->
  (exists t, date_cell r = CTimestamp t) \/ date_cell r = CNaT.
Proof.
  rewrite coerce_lookup. destruct (df !! i) as [r0|]; [|discriminate].
  intros [= <-]. cbn.
  destruct (mjoin _) as [t|]; cbn; eauto.
Qed.

End Coercion.

(** ** One row of the daily breakdown *)

Section Rows.

Variable hw : float.
Variable holidays : list date.

(** The weekday test on a timestamp and on NaT. *)
Lemma rest_day_timestamp (t : timestamp) :
  rest_day (CTimestamp t) holidays
  = Ok ((Calendar.weekday (ts_date t) =? 4)
        || bool_decide (ts_date t ∈ holidays)).
Proof.
  unfold rest_day. cbn. destruct (_ =? 4); reflexivity.
Qed.

Lemma rest_day_NaT : rest_day CNaT holidays = Ok false.
Proof. reflexivity. Qed.

Lemma normal_pay_multiplier (rest : bool) (x : float) :
  Py.float_mul_num x (multiplier rest) = Ok (x * (if rest then 1.5 else 1))%float.
Proof. destruct rest; reflexivity. Qed.

Lemma daily_entry_inv (r : attendance) (e : daily_pay_entry) :
  daily_entry hw holidays r = Ok e ->
  exists rest,
    rest_day (date_cell r) holidays = Ok rest
    /\ parse_hours (default (VInt 0) (total_working_hours r)) = Ok (e_total_hours e)
    /\ parse_hours (default (VInt 0) (extra_working_time r)) = Ok (e_extra_hours e)
    /\ cell_date (date_cell r) = Ok (e_date e)
    /\ e_employee_id e = employee_id r
    /\ e_employee_name e = employee_name r
    /\ e_in_time e = in_time r
    /\ e_out_time e = out_time r
    /\ e_daily_pay e = pay hw rest (e_total_hours e) (e_extra_hours e).
Proof.
  unfold daily_entry. intros H.
  destruct (parse_hours (default _ (total_working_hours r))) as [th|] eqn:Eth;
    [cbn in H|discriminate].
  destruct (parse_hours (default _ (extra_working_time r))) as [eh|] eqn:Eeh;
    [cbn in H|discriminate].
  destruct (rest_day _ _) as [rest|] eqn:Er; [cbn in H|discriminate].
  rewrite normal_pay_multiplier in H. cbn in H.
  destruct (cell_date _) as [d|] eqn:Ed; [cbn in H|discriminate].
  injection H as <-. exists rest. cbn. repeat split; reflexivity.
Qed.

Lemma daily_entry_total (r : attendance) (th eh : float) :
  parse_hours (default (VInt 0) (total_working_hours r)) = Ok th ->
  parse_hours (default (VInt 0) (extra_working_time r)) = Ok eh ->
  (exists t, date_cell r = CTimestamp t) \/ date_cell r = CNaT ->
  exists e, daily_entry hw holidays r = Ok e.
Proof.
  intros Hth Heh Hd. unfold daily_entry. rewrite Hth, Heh. cbn.
  destruct Hd as [[t Ht]|Ht]; rewrite Ht.
  - rewrite rest_day_timestamp. cbn. rewrite normal_pay_multiplier. cbn. eauto.
  - rewrite rest_day_NaT. cbn. eauto.
Qed.

End Rows.

(** ** The engine as a whole *)

Section EngineFacts.

Variable to_datetime : list cell -> list (option timestamp).
Variable group_sum : list float -> float.

Lemma calculate_salary_result (w : world) (df : nat) (rows : dataframe)
    (b a : Py.num) (h : option (list date)) :
  frames w !! df = Some rows ->
  snd (calculate_salary to_datetime group_sum w df b a h)
  = pay_of_table group_sum (coerce to_datetime rows) b a
      (default (default_holidays w) h).
Proof. intros Hf. unfold calculate_salary. rewrite Hf. reflexivity. Qed.

Lemma calculate_salary_world (w : world) (df : nat) (rows : dataframe)
    (b a : Py.num) (h : option (list date)) :
  frames w !! df = Some rows ->
  fst (calculate_salary to_datetime group_sum w df b a h)
  = {| frames := <[df := coerce to_datetime rows]> (frames w);
       default_holidays := default_holidays w |}.
Proof. intros Hf. unfold calculate_salary. rewrite Hf. reflexivity. Qed.

Abbreviation calculate_salary := (calculate_salary to_datetime group_sum).
Abbreviation pay_of_table := (pay_of_table group_sum).
Abbreviation coerce := (coerce to_datetime).

(** What a successful call went through. *)
Lemma pay_of_table_inv (df : dataframe) (b a : Py.num) (holidays : list date)
    (rep : report) :
  pay_of_table df b a holidays = Ok rep ->
  wage_rates b a = Ok (daily_wage rep, hourly_wage rep)
  /\ for_each (daily_entry (hourly_wage rep) holidays) df = Ok (breakdown_df rep)
  /\ monthly group_sum (breakdown_df rep) b a = Ok (monthly_totals rep).
Proof.
  unfold pay_of_table. intros H.
  destruct (wage_rates b a) as [[dw hw]|] eqn:Ew; [cbn in H|discriminate].
  destruct (for_each _ df) as [results|] eqn:Er; [cbn in H|discriminate].
  destruct (monthly _ results b a) as [totals|] eqn:Em; [cbn in H|discriminate].
  injection H as <-. cbn. auto.
Qed.

(** Entry [i] of the breakdown comes from row [i] of the coerced table. *)
Lemma breakdown_lookup (w : world) (df : nat) (rows : dataframe)
    (b a : Py.num) (h : option (list date)) (rep : report)
    (i : nat) (e : daily_pay_entry) :
  frames w !! df = Some rows ->
  snd (calculate_salary w df b a h) = Ok rep ->
  breakdown_df rep !! i = Some e ->
  exists r,
    coerce rows !! i = Some r
    /\ daily_entry (hourly_wage rep) (default (default_holidays w) h) r = Ok e.
Proof.
  intros Hf Hr He. rewrite (calculate_salary_result _ _ _ _ _ _ Hf) in Hr.
  apply pay_of_table_inv in Hr as (_ & Hloop & _).
  eapply for_each_lookup; eassumption.
Qed.

(** C1. For every attendance record whose parsed date is a Friday or a
    listed holiday, the emitted entry has
    [dailyPay = round(totalHours*hourlyWage*1.5 + extraHours*hourlyWage, 2)];
    for every record whose date is neither, the multiplier is 1.0 and
    [dailyPay = round(totalHours*hourlyWage + extraHours*hourlyWage, 2)];
    the extra hours are not multiplied in either case.  The hours of the
    entry are the parsed hours of the record, and its date is the date of
    the record's timestamp. *)
Theorem rest_day_multiplier (w : world) (df : nat) (rows : dataframe)
    (b a : Py.num) (h : option (list date)) (rep : report)
    (i : nat) (e : daily_pay_entry) (d : date) :
  frames w !! df = Some rows ->
  snd (calculate_salary w df b a h) = Ok rep ->
  breakdown_df rep !! i = Some e ->
  e_date e = Some d ->
  let holidays := default (default_holidays w) h in
  let hw := hourly_wage rep in
  let th := e_total_hours e in
  let eh := e_extra_hours e in
  (exists r t,
      coerce rows !! i = Some r
      /\ date_cell r = CTimestamp t /\ ts_date t = d
      /\ parse_hours (default (VInt 0) (total_working_hours r)) = Ok th
      /\ parse_hours (default (VInt 0) (extra_working_time r)) = Ok eh)
  /\ (Calendar.weekday d = 4 \/ d ∈ holidays ->
      e_daily_pay e = Py.round2 (th * hw * 1.5 + eh * hw)%float)
  /\ (~ (Calendar.weekday d = 4 \/ d ∈ holidays) ->
      e_daily_pay e = Py.round2 (th * hw + eh * hw)%float).
Proof.
  intros Hf Hr He Hd holidays hw th eh.
  destruct (breakdown_lookup _ _ _ _ _ _ _ _ _ Hf Hr He) as (r & Hi & Hentry).
  apply daily_entry_inv in Hentry
    as (rest & Hrest & Hth & Heh & Hdate & _ & _ & _ & _ & Hpay).
  destruct (coerced_date _ _ _ _ Hi) as [[t Ht]|Ht]; rewrite Ht in *;
    cbn in Hdate; [|congruence].
  assert (ts_date t = d) as Htd by congruence.
  rewrite rest_day_timestamp in Hrest. injection Hrest as Hrest.
  rewrite Htd in Hrest. fold holidays in Hrest.
  split; [exists r, t; auto|].
  unfold pay in Hpay. fold th eh hw in Hpay.
  split; intros Hcase.
  - assert (rest = true) as ->; [|exact Hpay].
    rewrite <- Hrest. apply orb_true_iff.
    destruct Hcase as [Hw|Hh]; [left; lia|right; apply bool_decide_eq_true_2, Hh].
  - assert (rest = false) as ->.
    { rewrite <- Hrest. apply orb_false_iff. split.
      - apply Z.eqb_neq. tauto.
      - apply bool_decide_eq_false_2. tauto. }
    rewrite FloatFacts.mul_one in Hpay. exact Hpay.
Qed.

Lemma monthly_inv (entries : list daily_pay_entry) (b a : Py.num)
    (totals : list monthly_total) :
  monthly group_sum entries b a = Ok totals ->
  entries <> []
  /\ exists fixed,
      Py.add b a = Ok fixed
      /\ for_each (monthly_row group_sum entries fixed) (group_keys entries) = Ok totals.
Proof.
  unfold monthly. destruct entries as [|e entries]; [discriminate|].
  intros H. split; [discriminate|].
  destruct (Py.add b a) as [fixed|]; [cbn in H|discriminate]. eauto.
Qed.

Lemma monthly_row_inv (entries : list daily_pay_entry) (fixed : Py.num)
    (k : key) (m : monthly_total) :
  monthly_row group_sum entries fixed k = Ok m ->
  (m_employee_id m, m_employee_name m) = k
  /\ m_total_hours m = group_sum (e_total_hours <$> group k entries)
  /\ m_extra_hours m = group_sum (e_extra_hours <$> group k entries)
  /\ m_daily_pay m = group_sum (e_daily_pay <$> group k entries)
  /\ m_fixed_monthly_pay m = fixed
  /\ Py.float_add_num (m_daily_pay m) fixed = Ok (m_final_monthly_pay m).
Proof.
  unfold monthly_row. intros H.
  destruct (Py.float_add_num _ fixed) as [final|] eqn:Ef; [cbn in H|discriminate].
  injection H as <-. cbn. destruct k. rewrite Ef. auto 10.
Qed.

Lemma float_add_num_inv (x : float) (n : Py.num) (r : float) :
  Py.float_add_num x n = Ok r ->
  exists f, Py.to_float n = Ok f /\ r = (x + f)%float.
Proof.
  destruct n as [z|y]; cbn.
  - unfold Py.float_add_int. destruct (Py.float_of_int z) as [f|]; [|discriminate].
    cbn. intros [= <-]. eauto.
  - intros [= <-]. eauto.
Qed.

Lemma wage_rates_inv (b a : Py.num) (dw hw : float) :
  wage_rates b a = Ok (dw, hw) ->
  (exists total yearly,
      Py.add b a = Ok total
      /\ Py.mul_int total 12 = Ok yearly
      /\ Py.truediv_int yearly 365 = Ok dw)
  /\ hw = (dw / 8)%float.
Proof.
  unfold wage_rates. intros H.
  destruct (Py.add b a) as [total|]; [cbn in H|discriminate].
  destruct (Py.mul_int total 12) as [yearly|] eqn:Ey; [cbn in H|discriminate].
  destruct (Py.truediv_int yearly 365) as [dw'|] eqn:Ed; [cbn in H|discriminate].
  change (Py.float_truediv_int dw' 8) with (Ok (dw' / 8)%float) in H.
  cbn in H. injection H as <- <-.
  split; [exists total, yearly; auto|reflexivity].
Qed.

Lemma wage_rates_int (b a : Z) (dw hw : float) :
  wage_rates (Py.PInt b) (Py.PInt a) = Ok (dw, hw) ->
  dw = Py.int_quotient ((b + a) * 12) 365 /\ hw = (dw / 8)%float.
Proof.
  intros H. apply wage_rates_inv in H as ((total & yearly & Ht & Hy & Hd) & Hh).
  cbn in Ht, Hy. injection Ht as <-. injection Hy as <-.
  unfold Py.truediv_int, Py.int_truediv in Hd.
  change (365 =? 0) with false in Hd. cbv iota zeta in Hd.
  destruct (is_infinity (Py.int_quotient ((b + a) * 12) 365)); [discriminate|].
  injection Hd as <-. auto.
Qed.

(** C3. The two wage rates are computed once, from the salary alone, as
    [dailyWage = (basicSalary + allowance) * 12 / 365] and
    [hourlyWage = dailyWage / 8], and the call returns these values; for
    integers the daily wage is the double nearest the quotient.  With
    [basicSalary = 30000] and [allowance = 5000] the daily wage is the
    double nearest [35000 * 12 / 365], between 1150.68 and 1150.69, and the
    hourly wage lies between 143.83 and 143.84 (the bounds are the doubles
    nearest 115068/100, 115069/100, 14383/100 and 14384/100). *)
Theorem wage_rate_scalars (w : world) (df : nat) (rows : dataframe)
    (b a : Py.num) (h : option (list date)) (rep : report) :
  frames w !! df = Some rows ->
  snd (calculate_salary w df b a h) = Ok rep ->
  (exists total yearly,
      Py.add b a = Ok total
      /\ Py.mul_int total 12 = Ok yearly
      /\ Py.truediv_int yearly 365 = Ok (daily_wage rep))
  /\ hourly_wage rep = (daily_wage rep / 8)%float
  /\ (forall bz az, b = Py.PInt bz -> a = Py.PInt az ->
        daily_wage rep = Py.int_quotient ((bz + az) * 12) 365)
  /\ (b = Py.PInt 30000 -> a = Py.PInt 5000 ->
        daily_wage rep = Py.int_quotient (35000 * 12) 365
        /\ (Py.int_quotient 115068 100 <? daily_wage rep)%float = true
        /\ (daily_wage rep <? Py.int_quotient 115069 100)%float = true
        /\ (Py.int_quotient 14383 100 <? hourly_wage rep)%float = true
        /\ (hourly_wage rep <? Py.int_quotient 14384 100)%float = true).
Proof.
  intros Hf Hr. rewrite (calculate_salary_result _ _ _ _ _ _ Hf) in Hr.
  apply pay_of_table_inv in Hr as (Hw & _ & _).
  pose proof (wage_rates_inv _ _ _ _ Hw) as [Hd Hh].
  split; [assumption|]. split; [assumption|]. split.
  - intros bz az -> ->. apply (wage_rates_int _ _ _ _ Hw).
  - intros -> ->. apply wage_rates_int in Hw as [Hdw Hhw].
    rewrite Hhw, Hdw. vm_compute. auto.
Qed.

(** *** Grouping *)

Lemma for_each_fmap_inv {A B : Type} (f : A -> result B) (g : B -> A)
    (l : list A) (ys : list B) :
  (forall x y, f x = Ok y -> g y = x) ->
  for_each f l = Ok ys -> g <$> ys = l.
Proof.
  intros Hg H. apply for_each_Forall2 in H.
  induction H as [|x y l ys Hxy _ IH]; cbn; [reflexivity|].
  rewrite IH, (Hg _ _ Hxy). reflexivity.
Qed.

Lemma group_keys_elem_of (entries : list daily_pay_entry) (k : key) :
  k ∈ group_keys entries <-> exists e, e ∈ entries /\ entry_key e = Some k.
Proof.
  unfold group_keys.
  rewrite merge_sort_Permutation, elem_of_remove_dups.
  apply list_elem_of_omap.
Qed.

Lemma group_keys_NoDup (entries : list daily_pay_entry) : NoDup (group_keys entries).
Proof.
  unfold group_keys. rewrite merge_sort_Permutation. apply NoDup_remove_dups.
Qed.

Lemma monthly_keys (entries : list daily_pay_entry) (b a : Py.num)
    (totals : list monthly_total) :
  monthly group_sum entries b a = Ok totals ->
  monthly_key <$> totals = group_keys entries.
Proof.
  intros H. apply monthly_inv in H as (_ & fixed & _ & Hrows).
  eapply for_each_fmap_inv; [|exact Hrows].
  intros k m Hm. apply monthly_row_inv in Hm as (Hk & _). exact Hk.
Qed.

(** The keys of the breakdown are the keys of the table. *)
Lemma breakdown_keys (df : dataframe) (b a : Py.num) (holidays : list date)
    (rep : report) (k : key) :
  pay_of_table (coerce df) b a holidays = Ok rep ->
  (exists e, e ∈ breakdown_df rep /\ entry_key e = Some k)
  <-> (exists r, r ∈ df /\ row_key r = Some k).
Proof.
  intros H. apply pay_of_table_inv in H as (_ & Hloop & _).
  pose proof Hloop as HF. apply for_each_Forall2 in HF.
  split.
  - intros (e & Hin & Hk).
    apply list_elem_of_lookup in Hin as [i Hi].
    destruct (for_each_lookup _ _ _ _ _ Hloop Hi) as (r & Hr & He).
    rewrite coerce_lookup in Hr.
    destruct (df !! i) as [r0|] eqn:Hr0; [|discriminate].
    injection Hr as <-.
    apply daily_entry_inv in He as (_ & _ & _ & _ & _ & Hid & Hname & _).
    exists r0. split; [eapply list_elem_of_lookup_2, Hr0|].
    unfold entry_key in Hk. rewrite Hid, Hname in Hk. exact Hk.
  - intros (r0 & Hin & Hk).
    apply list_elem_of_lookup in Hin as [i Hi].
    assert (coerce df !! i = Some (coerced_row to_datetime df i r0)) as Hc
      by (rewrite coerce_lookup, Hi; reflexivity).
    destruct (Forall2_lookup_l _ _ _ _ _ HF Hc) as (e & He & Hentry).
    apply daily_entry_inv in Hentry as (_ & _ & _ & _ & _ & Hid & Hname & _).
    exists e. split; [eapply list_elem_of_lookup_2, He|].
    unfold entry_key. rewrite Hid, Hname. exact Hk.
Qed.

(** The rows of a group are the rows that carry its id and its name. *)
Lemma group_by_id_and_name (i n : string) (entries : list daily_pay_entry) :
  group (i, n) entries
  = filter (fun e => e_employee_id e = Some i /\ e_employee_name e = Some n)
      entries.
Proof.
  unfold group. apply list_filter_iff. intros e. unfold entry_key.
  destruct (e_employee_id e), (e_employee_name e); split;
    try discriminate; try (intros [? ?]; discriminate).
  - intros [= -> ->]. auto.
  - intros [[= ->] [= ->]]. reflexivity.
Qed.

(** What a row of the monthly totals holds, for any sum over a group. *)
Lemma monthly_pay_rows (w : world) (df : nat)
    (rows : dataframe) (b a : Py.num) (h : option (list date)) (rep : report) :
  frames w !! df = Some rows ->
  snd (calculate_salary w df b a h) = Ok rep ->
  (exists fixed,
      Py.add b a = Ok fixed
      /\ forall m, m ∈ monthly_totals rep ->
           let pays :=
             e_daily_pay <$>
               filter (fun e => e_employee_id e = Some (m_employee_id m)
                                /\ e_employee_name e = Some (m_employee_name m))
                 (breakdown_df rep) in
           pays <> []
           /\ m_fixed_monthly_pay m = fixed
           /\ m_daily_pay m = group_sum pays
           /\ exists f,
                Py.to_float fixed = Ok f
                /\ m_final_monthly_pay m = (f + m_daily_pay m)%float
                /\ m_final_monthly_pay m = (m_daily_pay m + f)%float)
  /\ (forall e, e ∈ breakdown_df rep -> exists x, e_daily_pay e = Py.round2 x).
Proof.
  intros Hf Hr. rewrite (calculate_salary_result _ _ _ _ _ _ Hf) in Hr.
  apply pay_of_table_inv in Hr as (_ & Hloop & Hm).
  apply monthly_inv in Hm as (_ & fixed & Hfixed & Hrows).
  split.
  - exists fixed. split; [assumption|]. intros m Hin pays.
    destruct (for_each_elem_of _ _ _ _ Hrows Hin) as (k & Hk' & Hk).
    apply monthly_row_inv in Hk as (Hkey & _ & _ & Hd & Hfx & Hfinal).
    assert (pays = e_daily_pay <$> group k (breakdown_df rep)) as Hpays.
    { subst pays. rewrite <- Hkey, group_by_id_and_name. reflexivity. }
    split.
    { rewrite Hpays. intros Hnil. apply fmap_nil_inv in Hnil.
      apply group_keys_elem_of in Hk' as (e & He & Hek).
      assert (e ∈ group k (breakdown_df rep)) as Hg
        by (apply list_elem_of_filter; auto).
      rewrite Hnil in Hg. apply elem_of_nil in Hg. exact Hg. }
    split; [assumption|]. split; [rewrite Hpays; assumption|].
    apply float_add_num_inv in Hfinal as (f & Hto & ->).
    exists f. split; [assumption|]. split; [apply FloatFacts.add_comm|reflexivity].
  - intros e Hin.
    destruct (for_each_elem_of _ _ _ _ Hloop Hin) as (r & _ & He).
    apply daily_entry_inv in He as (rest & _ & _ & _ & _ & _ & _ & _ & _ & Hpay).
    rewrite Hpay. unfold pay. eauto.
Qed.

(** C6, as the code has it.  When the call returns, the monthly totals hold
    exactly one row for each pair of employee id and name that some record
    carries with both of them present, and no other row; a record whose id
    or name is empty has no row in the monthly totals.  Every record,
    whatever its id and name, has its row in the daily breakdown. *)
Theorem monthly_totals_one_row_per_employee (w : world) (df : nat)
    (rows : dataframe) (b a : Py.num) (h : option (list date)) (rep : report) :
  frames w !! df = Some rows ->
  snd (calculate_salary w df b a h) = Ok rep ->
  NoDup (monthly_key <$> monthly_totals rep)
  /\ (forall i n,
        (i, n) ∈ monthly_key <$> monthly_totals rep
        <-> exists r, r ∈ rows /\ employee_id r = Some i /\ employee_name r = Some n)
  /\ (forall j r, rows !! j = Some r ->
        exists e,
          breakdown_df rep !! j = Some e
          /\ e_employee_id e = employee_id r
          /\ e_employee_name e = employee_name r).
Proof.
  intros Hf Hr. rewrite (calculate_salary_result _ _ _ _ _ _ Hf) in Hr.
  pose proof (pay_of_table_inv _ _ _ _ _ Hr) as (_ & Hloop & Hm).
  rewrite (monthly_keys _ _ _ _ Hm).
  split; [apply group_keys_NoDup|]. split.
  - intros i n. rewrite group_keys_elem_of, (breakdown_keys _ _ _ _ _ _ Hr).
    split.
    + intros (r & Hin & Hk). exists r. split; [assumption|].
      unfold row_key in Hk.
      destruct (employee_id r), (employee_name r); try discriminate.
      injection Hk as -> ->. auto.
    + intros (r & Hin & Hid & Hname). exists r. split; [assumption|].
      unfold row_key. rewrite Hid, Hname. reflexivity.
  - intros j r Hj. apply for_each_Forall2 in Hloop.
    assert (coerce rows !! j = Some (coerced_row to_datetime rows j r)) as Hc
      by (rewrite coerce_lookup, Hj; reflexivity).
    destruct (Forall2_lookup_l _ _ _ _ _ Hloop Hc) as (e & He & Hentry).
    apply daily_entry_inv in Hentry as (_ & _ & _ & _ & _ & Hid & Hname & _).
    exists e. auto.
Qed.

(** *** When the call returns *)

Lemma parse_hours_readable (v : option value) :
  readable v = true -> exists f, parse_hours (default (VInt 0) v) = Ok f.
Proof.
  destruct v as [[|z|f|s]|]; cbn; intros Hr.
  - eauto.
  - unfold parse_hours, Py.float_of_int. cbn [pd_isna].
    unfold fits_double in Hr. apply negb_true_iff in Hr. rewrite Hr. eauto.
  - unfold parse_hours. cbn [pd_isna]. destruct (is_nan f); eauto.
  - eauto.
  - eauto.
Qed.

Lemma monthly_total_ok (entries : list daily_pay_entry) (b a : Py.num) :
  entries <> [] ->
  is_ok (Py.add b a ≫= Py.to_float) = true ->
  exists totals, monthly group_sum entries b a = Ok totals.
Proof.
  intros Hne Hfix. unfold monthly.
  destruct entries as [|e entries]; [congruence|].
  destruct (Py.add b a) as [fixed|]; [cbn in *|discriminate].
  apply for_each_total, Forall_forall. intros k _.
  unfold monthly_row.
  destruct fixed as [z|y]; cbn in *.
  - unfold Py.float_add_int. destruct (Py.float_of_int z); [cbn|discriminate]. eauto.
  - eauto.
Qed.

Lemma pay_of_table_total (df : dataframe) (b a : Py.num) (holidays : list date) :
  df <> [] ->
  salary_in_range b a = true ->
  Forall (fun r => hours_readable r = true) df ->
  Forall (fun r => (exists t, date_cell r = CTimestamp t) \/ date_cell r = CNaT) df ->
  exists rep, pay_of_table df b a holidays = Ok rep.
Proof.
  intros Hne Hs Hh Hd. unfold salary_in_range in Hs.
  apply andb_prop in Hs as [Hw Hfix].
  unfold pay_of_table.
  destruct (wage_rates b a) as [[dw hw]|]; [cbn|discriminate].
  destruct (for_each_total (daily_entry hw holidays) df) as [results Hres].
  { rewrite Forall_forall in *. intros r Hin.
    specialize (Hh r Hin). specialize (Hd r Hin).
    unfold hours_readable in Hh. apply andb_prop in Hh as [Ht He].
    destruct (parse_hours_readable _ Ht) as [th Hth].
    destruct (parse_hours_readable _ He) as [eh Heh].
    eapply daily_entry_total; eassumption. }
  rewrite Hres. cbn.
  destruct (monthly_total_ok results b a) as [totals Htot]; [|assumption|].
  { apply for_each_length in Hres. destruct results, df; cbn in *; congruence. }
  rewrite Htot. cbn. eauto.
Qed.

Lemma coerce_hours_readable (rows : dataframe) :
  Forall (fun r => hours_readable r = true) rows ->
  Forall (fun r => hours_readable r = true) (coerce rows).
Proof.
  rewrite !Forall_lookup. intros H i r Hi.
  rewrite coerce_lookup in Hi.
  destruct (rows !! i) as [r0|] eqn:Hr0; [|discriminate].
  injection Hi as <-. apply (H i r0 Hr0).
Qed.

Lemma calculate_salary_total (w : world) (df : nat) (rows : dataframe)
    (b a : Py.num) (h : option (list date)) :
  frames w !! df = Some rows ->
  rows <> [] ->
  salary_in_range b a = true ->
  Forall (fun r => hours_readable r = true) rows ->
  exists rep, snd (calculate_salary w df b a h) = Ok rep.
Proof.
  intros Hf Hne Hs Hh. rewrite (calculate_salary_result _ _ _ _ _ _ Hf).
  apply pay_of_table_total.
  - intros Hc. apply (f_equal length) in Hc.
    rewrite coerce_length in Hc. destruct rows; [congruence|discriminate].
  - assumption.
  - apply coerce_hours_readable, Hh.
  - apply Forall_lookup. intros i r Hi. eapply coerced_date, Hi.
Qed.

Lemma daily_entry_raise (hw : float) (holidays : list date) (r : attendance)
    (e : exn) :
  (exists t, date_cell r = CTimestamp t) \/ date_cell r = CNaT ->
  daily_entry hw holidays r = Raise e -> e = OverflowError.
Proof.
  intros Hd. unfold daily_entry.
  destruct (parse_hours (default _ (total_working_hours r))) as [th|e'] eqn:Eth;
    cbn; [|intros [= <-]; eapply parse_hours_raise, Eth].
  destruct (parse_hours (default _ (extra_working_time r))) as [eh|e'] eqn:Eeh;
    cbn; [|intros [= <-]; eapply parse_hours_raise, Eeh].
  destruct Hd as [[t Ht]|Ht]; rewrite Ht.
  - rewrite rest_day_timestamp. cbn. rewrite normal_pay_multiplier. discriminate.
  - rewrite rest_day_NaT. discriminate.
Qed.

Lemma monthly_raise (entries : list daily_pay_entry) (b a : Py.num) (e : exn) :
  entries <> [] ->
  monthly group_sum entries b a = Raise e -> e = OverflowError.
Proof.
  intros Hne. unfold monthly. destruct entries as [|e0 entries]; [congruence|].
  destruct (Py.add b a) as [fixed|e'] eqn:Ea; cbn;
    [|intros [= <-]; eapply add_raise, Ea].
  intros H. apply for_each_raise in H as (k & _ & Hk).
  unfold monthly_row in Hk.
  destruct (Py.float_add_num _ fixed) as [final|e'] eqn:Ef; cbn in Hk;
    [discriminate|].
  injection Hk as <-. eapply float_add_num_raise, Ef.
Qed.

(** On a table with a row the only exception is that of a number out of
    range. *)
Lemma calculate_salary_raise (w : world) (df : nat) (rows : dataframe)
    (b a : Py.num) (h : option (list date)) (e : exn) :
  frames w !! df = Some rows ->
  rows <> [] ->
  snd (calculate_salary w df b a h) = Raise e -> e = OverflowError.
Proof.
  intros Hf Hne. rewrite (calculate_salary_result _ _ _ _ _ _ Hf).
  unfold pay_of_table.
  destruct (wage_rates b a) as [[dw hw]|e'] eqn:Ew; cbn;
    [|intros [= <-]; eapply wage_rates_raise, Ew].
  destruct (for_each _ (coerce rows)) as [results|e'] eqn:Er; cbn.
  - destruct (monthly group_sum results b a) as [totals|e'] eqn:Em; cbn;
      [discriminate|].
    intros [= <-]. eapply monthly_raise; [|exact Em].
    apply for_each_length in Er. rewrite coerce_length in Er.
    destruct results, rows; cbn in *; congruence.
  - intros [= <-]. apply for_each_raise in Er as (r & Hin & Hr).
    apply list_elem_of_lookup in Hin as [i Hi].
    eapply daily_entry_raise; [|exact Hr]. eapply coerced_date, Hi.
Qed.



(** C9, as the code has it.  The engine keeps no state of its own, and it
    writes into the table it is given.  Two calls in turn, each on
    its own table, the two tables holding the same records, with the same
    salary, allowance and holidays, return the same result, be it a report
    or an exception; each call leaves its table coerced, so the two tables
    are equal in the end; the default list of holidays is not changed by
    either. *)
Theorem two_calls_same_result (w : world) (df1 df2 : nat) (rows : dataframe)
    (b a : Py.num) (h : option (list date)) :
  df1 <> df2 ->
  frames w !! df1 = Some rows ->
  frames w !! df2 = Some rows ->
  let first := calculate_salary w df1 b a h in
  let second := calculate_salary (fst first) df2 b a h in
  snd first = snd second
  /\ frames (fst first) !! df1 = Some (coerce rows)
  /\ frames (fst second) !! df1 = frames (fst second) !! df2
  /\ default_holidays (fst second) = default_holidays w.
Proof.
  intros Hne H1 H2 first second.
  assert (frames (fst first) !! df2 = Some rows) as H2'.
  { subst first. rewrite (calculate_salary_world _ _ _ _ _ _ H1). cbn.
    rewrite lookup_insert_ne by congruence. exact H2. }
  assert (default_holidays (fst first) = default_holidays w) as Hd.
  { subst first. rewrite (calculate_salary_world _ _ _ _ _ _ H1). reflexivity. }
  split; [|split; [|split]].
  - subst second. rewrite (calculate_salary_result _ _ _ _ _ _ H2'), Hd.
    subst first. apply (calculate_salary_result _ _ _ _ _ _ H1).
  - subst first. rewrite (calculate_salary_world _ _ _ _ _ _ H1). cbn.
    apply lookup_insert_eq.
  - subst second. rewrite (calculate_salary_world _ _ _ _ _ _ H2'). cbn.
    rewrite lookup_insert_eq, lookup_insert_ne by congruence.
    subst first. rewrite (calculate_salary_world _ _ _ _ _ _ H1). cbn.
    apply lookup_insert_eq.
  - subst second. rewrite (calculate_salary_world _ _ _ _ _ _ H2'). cbn. exact Hd.
Qed.

End EngineFacts.

(** ** The monthly pay *)

Module SumFacts.

Lemma float_eq (x y : float) : Prim2SF x = Prim2SF y -> x = y.
Proof.
  intros H. rewrite <- (SF2Prim_Prim2SF x), <- (SF2Prim_Prim2SF y), H. reflexivity.
Qed.

Lemma sub_zero (x : float) : (x - 0)%float = x.
Proof.
  apply float_eq. rewrite sub_spec. change (Prim2SF 0) with (S754_zero false).
  destruct (Prim2SF x) as [[]|[]| |s m e]; reflexivity.
Qed.

Lemma finite_sf (x : float) :
  is_finite x = true ->
  match Prim2SF x with
  | S754_zero _ | S754_finite _ _ _ => True
  | _ => False
  end.
Proof.
  unfold is_finite, is_nan, is_infinity.
  rewrite !FloatAxioms.eqb_spec, FloatAxioms.abs_spec.
  destruct (Prim2SF x) as [s| [] | |s m e]; cbn; try exact (fun _ => I);
    discriminate.
Qed.

(** What is left of a finite value once it is taken away again. *)
Lemma zero_add_sub (x : float) : is_finite x = true -> (0 + x - x)%float = 0%float.
Proof.
  intros H. apply finite_sf in H. apply float_eq.
  rewrite sub_spec, add_spec. change (Prim2SF 0) with (S754_zero false).
  destruct (Prim2SF x) as [[]| | |s m e]; try contradiction; try reflexivity.
  cbn [SF64add SFadd SF64sub SFsub].
  rewrite Z.sub_diag. reflexivity.
Qed.

Lemma group_sum_one (x : float) :
  is_nan x = false -> Pandas.group_sum [x] = (0 + x)%float.
Proof.
  intros Hx. unfold Pandas.group_sum. cbn [foldl]. unfold Pandas.sum_step.
  rewrite Hx, sub_zero. reflexivity.
Qed.

Lemma group_sum_two (x y : float) :
  is_finite x = true -> is_nan y = false ->
  Pandas.group_sum [x; y] = (0 + x + y)%float.
Proof.
  intros Hx Hy. unfold Pandas.group_sum. cbn [foldl]. unfold Pandas.sum_step at 2.
  assert (is_nan x = false) as Hn.
  { unfold is_finite in Hx. apply negb_true_iff, orb_false_iff in Hx. apply Hx. }
  rewrite Hn, !sub_zero, (zero_add_sub x Hx).
  change (is_nan 0) with false. cbv iota.
  unfold Pandas.sum_step. rewrite Hy, sub_zero. reflexivity.
Qed.

End SumFacts.

(** C2. On every row of the monthly totals the fixed pay is
    [basicSalary + allowance], the same on every row; the daily pay is the
    sum that pandas takes, in row order, of the daily pays of the rows of
    the breakdown that carry the id and the name of that row, at least one
    row, each pay a value rounded to two places; and the final pay is the
    fixed pay plus that sum, by one float addition and with no further
    rounding.  The sum is not rounded either: for one row it is the pay of
    that row, and for two rows it is the float sum of the two pays. *)
Theorem final_monthly_pay_is_fixed_plus_sum
    (to_datetime : list cell -> list (option timestamp)) (w : world) (df : nat)
    (rows : dataframe) (b a : Py.num) (h : option (list date)) (rep : report) :
  frames w !! df = Some rows ->
  snd (calculate_salary to_datetime Pandas.group_sum w df b a h) = Ok rep ->
  (exists fixed,
      Py.add b a = Ok fixed
      /\ forall m, m ∈ monthly_totals rep ->
           let pays :=
             e_daily_pay <$>
               filter (fun e => e_employee_id e = Some (m_employee_id m)
                                /\ e_employee_name e = Some (m_employee_name m))
                 (breakdown_df rep) in
           pays <> []
           /\ m_fixed_monthly_pay m = fixed
           /\ m_daily_pay m = fst (foldl Pandas.sum_step (0, 0)%float pays)
           /\ (forall x, pays = [x] -> is_nan x = false ->
                 m_daily_pay m = (0 + x)%float)
           /\ (forall x y, pays = [x; y] -> is_finite x = true -> is_nan y = false ->
                 m_daily_pay m = (0 + x + y)%float)
           /\ exists f,
                Py.to_float fixed = Ok f
                /\ m_final_monthly_pay m = (f + m_daily_pay m)%float
                /\ m_final_monthly_pay m = (m_daily_pay m + f)%float)
  /\ (forall e, e ∈ breakdown_df rep -> exists x, e_daily_pay e = Py.round2 x).
Proof.
  intros Hf Hr.
  destruct (monthly_pay_rows to_datetime Pandas.group_sum w df rows b a h rep Hf Hr)
    as [(fixed & Hfixed & Hrows) Hrounded].
  split; [|exact Hrounded].
  exists fixed. split; [exact Hfixed|]. intros m Hin pays.
  destruct (Hrows m Hin) as (Hne & Hfx & Hd & Hfinal). fold pays in Hne, Hd.
  split; [exact Hne|]. split; [exact Hfx|]. split; [exact Hd|].
  split; [|split; [|exact Hfinal]].
  - intros x Hx Hn. rewrite Hd, Hx. apply SumFacts.group_sum_one, Hn.
  - intros x y Hxy Hx Hy. rewrite Hd, Hxy. apply SumFacts.group_sum_two; assumption.
Qed.

(** ** No validation of the salary *)

Section NoValidation.

Variable to_datetime : list cell -> list (option timestamp).
Variable group_sum : list float -> float.

Lemma wage_rates_int_ok (b a : Z) :
  is_ok (wage_rates (Py.PInt b) (Py.PInt a))
  = negb (is_infinity (Py.int_quotient ((b + a) * 12) 365)).
Proof.
  unfold wage_rates. cbn [Py.add Py.mul_int mbind result_bind].
  unfold Py.truediv_int, Py.int_truediv. change (365 =? 0) with false.
  cbv iota zeta.
  destruct (is_infinity (Py.int_quotient ((b + a) * 12) 365)); reflexivity.
Qed.

Lemma fixed_pay_int_ok (b a : Z) :
  is_ok (Py.add (Py.PInt b) (Py.PInt a) ≫= Py.to_float)
  = negb (is_infinity (Py.float_of_Z (b + a))).
Proof.
  cbn [Py.add mbind result_bind Py.to_float]. unfold Py.float_of_int.
  destruct (is_infinity (Py.float_of_Z (b + a))); reflexivity.
Qed.

(** A salary is in range exactly when its opposite is. *)
Lemma salary_in_range_opp (b a : Z) :
  salary_in_range (Py.PInt (- b)) (Py.PInt (- a))
  = salary_in_range (Py.PInt b) (Py.PInt a).
Proof.
  unfold salary_in_range. rewrite !wage_rates_int_ok, !fixed_pay_int_ok.
  replace (- b + - a) with (- (b + a)) by lia.
  replace (- (b + a) * 12) with (- ((b + a) * 12)) by lia.
  rewrite FloatFacts.quotient_fits_opp, FloatFacts.fits_opp. reflexivity.
Qed.

(** C8, as the code has it.  The engine does not validate the salary: a
    negative basic salary or allowance is accepted whenever its opposite
    is, the wage rates are computed from it by the same formulas and are
    the negated rates, and every record gets its row of the breakdown. *)
Theorem negative_salary_is_computed (w : world) (df : nat) (rows : dataframe)
    (b a : Z) (h : option (list date)) :
  frames w !! df = Some rows ->
  rows <> [] ->
  Forall (fun r => hours_readable r = true) rows ->
  salary_in_range (Py.PInt b) (Py.PInt a) = true ->
  exists rep,
    snd (calculate_salary to_datetime group_sum w df
           (Py.PInt (- b)) (Py.PInt (- a)) h) = Ok rep
    /\ daily_wage rep = Py.int_quotient ((- b + - a) * 12) 365
    /\ (b + a <> 0 ->
        daily_wage rep = (- Py.int_quotient ((b + a) * 12) 365)%float)
    /\ hourly_wage rep = (daily_wage rep / 8)%float
    /\ length (breakdown_df rep) = length rows.
Proof.
  intros Hf Hne Hh Hs. rewrite <- salary_in_range_opp in Hs.
  destruct (calculate_salary_total to_datetime group_sum w df rows _ _ h
              Hf Hne Hs Hh) as [rep Hrep].
  exists rep. split; [assumption|].
  rewrite (calculate_salary_result _ _ _ _ _ _ _ _ Hf) in Hrep.
  apply pay_of_table_inv in Hrep as (Hw & Hloop & _).
  apply wage_rates_int in Hw as [Hdw Hhw].
  split; [assumption|]. split; [|split; [assumption|]].
  - intros Hnz. rewrite Hdw.
    replace ((- b + - a) * 12) with (- ((b + a) * 12)) by lia.
    apply FloatFacts.int_quotient_opp. lia.
  - rewrite (for_each_length _ _ _ Hloop). apply coerce_length.
Qed.

End NoValidation.

(** ** The hours parser *)

Module TextFacts.

Lemma contains_app (c : ascii) (s t : Text.text) :
  Text.contains c (s ++ t) = Text.contains c s || Text.contains c t.
Proof. apply existsb_app. Qed.

Lemma split_without (c : ascii) (s : Text.text) :
  Text.contains c s = false -> Text.split c s = [s].
Proof.
  induction s as [|x s IH]; cbn; [reflexivity|].
  intros H. apply orb_false_iff in H as [Hx Hs].
  rewrite Hx, (IH Hs). reflexivity.
Qed.


Lemma contains_separator (c : ascii) (h m : Text.text) :
  Text.contains c (h ++ c :: m) = true.
Proof.
  rewrite contains_app. cbn. unfold Text.is_char at 2.
  rewrite Ascii.eqb_refl. apply orb_true_iff. right. reflexivity.
Qed.

(** *** Text without a minus sign *)

Lemma contains_true (c : ascii) (s : Text.text) :
  Text.contains c s = true <-> In c s.
Proof.
  unfold Text.contains. rewrite existsb_exists. split.
  - intros (x & Hx & Hc). unfold Text.is_char in Hc.
    apply Ascii.eqb_eq in Hc. subst. assumption.
  - intros H. exists c. split; [assumption|]. apply Ascii.eqb_refl.
Qed.

Lemma lstrip_incl (s : Text.text) : incl (Text.lstrip s) s.
Proof.
  induction s as [|x s IH]; cbn; [apply incl_refl|].
  destruct (Text.is_space x); [apply incl_tl, IH|apply incl_refl].
Qed.

Lemma strip_incl (s : Text.text) : incl (Text.strip s) s.
Proof.
  unfold Text.strip. intros c Hc.
  apply (proj2 (in_rev _ _)), lstrip_incl in Hc.
  apply (proj2 (in_rev _ _)) in Hc. apply lstrip_incl, Hc.
Qed.

Lemma c_lstrip_incl (s : Text.text) : incl (Text.c_lstrip s) s.
Proof.
  induction s as [|x s IH]; cbn; [apply incl_refl|].
  destruct (Text.is_c_space x); [apply incl_tl, IH|apply incl_refl].
Qed.

Lemma c_strip_incl (s : Text.text) : incl (Text.c_strip s) s.
Proof.
  unfold Text.c_strip. intros c Hc.
  apply (proj2 (in_rev _ _)), c_lstrip_incl in Hc.
  apply (proj2 (in_rev _ _)) in Hc. apply c_lstrip_incl, Hc.
Qed.

Lemma without_incl (c : ascii) (s t : Text.text) :
  incl s t -> Text.contains c t = false -> Text.contains c s = false.
Proof.
  intros Hi Ht. destruct (Text.contains c s) eqn:Hs; [|reflexivity].
  apply contains_true, Hi, contains_true in Hs. congruence.
Qed.

Lemma contains_cons (c x : ascii) (s : Text.text) :
  Text.contains c (x :: s) = Text.is_char c x || Text.contains c s.
Proof. reflexivity. Qed.

Lemma read_sign_without (s : Text.text) :
  Text.contains "-" s = false ->
  fst (Text.read_sign s) = false /\ Text.contains "-" (snd (Text.read_sign s)) = false.
Proof.
  destruct s as [|x s]; [auto|].
  rewrite contains_cons. intros H. apply orb_false_iff in H as [Hx Hs].
  unfold Text.read_sign. rewrite Hx.
  destruct (Text.is_char "+" x); cbn [fst snd]; [auto|].
  rewrite contains_cons, Hx, Hs. auto.
Qed.

Lemma digit_val_nonneg (c : ascii) (d : Z) : Text.digit_val c = Some d -> 0 <= d.
Proof.
  unfold Text.digit_val.
  destruct ((48 <=? N_of_ascii c)%N && (N_of_ascii c <=? 57)%N) eqn:H; [|discriminate].
  apply andb_prop in H as [H _]. apply N.leb_le in H. intros [= <-]. lia.
Qed.

Lemma read_digits_nonneg (s : Text.text) (acc : Z) (n : nat) (b : bool) (v : Z) (k : nat) :
  0 <= acc -> Text.read_digits acc n b s = Some (v, k) -> 0 <= v.
Proof.
  revert acc n b. induction s as [|c s IH]; intros acc n b Hacc; cbn.
  - destruct b; [intros [= <- _]; assumption|discriminate].
  - destruct (Text.digit_val c) as [d|] eqn:Hd.
    + apply digit_val_nonneg in Hd. apply IH. lia.
    + destruct (Text.is_char "_" c && b); [apply IH, Hacc|discriminate].
Qed.

Lemma py_int_nonneg (t : Text.text) (v : Z) :
  Text.contains "-" t = false -> Text.py_int t = Ok v -> 0 <= v.
Proof.
  intros Ht. unfold Text.py_int.
  pose proof (read_sign_without _ (without_incl _ _ _ (c_strip_incl t) Ht)) as [Hneg _].
  destruct (Text.read_sign (Text.c_strip t)) as [neg body]. cbn in Hneg. subst neg.
  unfold Text.digits.
  destruct (Text.read_digits 0 0 false body) as [[v' k]|] eqn:Hd; [|discriminate].
  destruct (Text.max_str_digits <? k)%nat; [discriminate|].
  intros [= <-]. eapply read_digits_nonneg; [|exact Hd]. lia.
Qed.

Lemma split_incl (c : ascii) (s : Text.text) :
  Forall (fun p => incl p s) (Text.split c s).
Proof.
  induction s as [|x s IH]; cbn.
  - constructor; [apply incl_refl|constructor].
  - destruct (Text.is_char c x).
    + constructor; [intros y []|].
      eapply List.Forall_impl; [|exact IH]. intros p Hp. apply incl_tl, Hp.
    + destruct (Text.split c s) as [|w ws].
      * constructor; [|constructor]. intros y [<-|[]]. left. reflexivity.
      * inversion IH as [|? ? Hw Hws]; subst. constructor.
        -- intros y [<-|Hy]; [left; reflexivity|right; apply Hw, Hy].
        -- eapply List.Forall_impl; [|exact Hws]. intros p Hp. apply incl_tl, Hp.
Qed.

Lemma nearest_nonneg (m : positive) (e : Z) : nonneg (Text.nearest false m e).
Proof.
  unfold Text.nearest. destruct (0 <=? e).
  - apply FloatFacts.nonneg_SF2Prim, FloatFacts.binary_normalize_nonneg. lia.
  - apply FloatFacts.nonneg_SF2Prim.
    pose proof (Z.pow_pos_nonneg 10 (- e) ltac:(lia)) as Hp.
    destruct (Z.le_gt_cases 0 (- e)) as [He|He].
    + specialize (Hp He). destruct (10 ^ (- e)) as [|p|p]; try lia.
      apply FloatFacts.SFdiv_nonneg.
    + rewrite Z.pow_neg_r by lia. reflexivity.
Qed.

Lemma py_float_nonneg (t : Text.text) (f : float) :
  Text.contains "-" t = false ->
  Text.py_float t = Ok f -> is_nan f = false -> nonneg f.
Proof.
  intros Ht. unfold Text.py_float.
  pose proof (read_sign_without _ (without_incl _ _ _ (c_strip_incl t) Ht)) as [Hneg _].
  destruct (Text.read_sign (Text.c_strip t)) as [neg body]. cbn in Hneg. subst neg.
  destruct (Text.is_word "inf" body || Text.is_word "infinity" body).
  { intros [= <-] _. reflexivity. }
  destruct (Text.is_word "nan" body).
  { intros [= <-] Hn. discriminate Hn. }
  destruct (Text.read_decimal body) as [[[|m|m] e]|]; try discriminate;
    intros [= <-] _; try reflexivity.
  apply nearest_nonneg.
Qed.

Lemma hours_of_text_nonneg (s : string) (f : float) :
  Text.contains "-" (list_ascii_of_string s) = false ->
  hours_of_text s = Ok f -> is_nan f = false -> nonneg f.
Proof.
  intros Hs. unfold hours_of_text.
  set (value := Text.strip (list_ascii_of_string s)).
  assert (Text.contains "-" value = false) as Hv
    by (eapply without_incl; [apply strip_incl|exact Hs]).
  destruct (Text.contains ":" value).
  - pose proof (split_incl ":" value) as Hparts.
    destruct (Text.split ":" value) as [|h [|m [|]]]; try discriminate.
    inversion Hparts as [|? ? Hh Hrest]; subst.
    inversion Hrest as [|? ? Hm _]; subst.
    destruct (Text.py_int h) as [hh|] eqn:Ehh; [|discriminate].
    destruct (Text.py_int m) as [mm|] eqn:Emm; [|discriminate].
    cbn [mbind result_bind].
    apply py_int_nonneg in Ehh; [|eapply without_incl; eassumption].
    apply py_int_nonneg in Emm; [|eapply without_incl; eassumption].
    unfold Py.int_truediv. change (60 =? 0) with false. cbv iota.
    destruct (is_infinity (Py.int_quotient mm 60)); [discriminate|].
    cbn [mbind result_bind].
    unfold Py.int_add_float, Py.float_of_int.
    destruct (is_infinity (Py.float_of_Z hh)); [discriminate|].
    cbn [mbind result_bind].
    intros [= <-] _. apply FloatFacts.add_nonneg.
    + apply FloatFacts.float_of_Z_nonneg_sf, Ehh.
    + apply FloatFacts.int_quotient_nonneg; [exact Emm|lia].
  - apply py_float_nonneg, Hv.
Qed.

End TextFacts.

(** *** Characters that no number holds, splitting, stripping and digits *)

Module JunkFacts.

Lemma in_lstrip (c : ascii) (s : Text.text) :
  In c s -> Text.is_space c = false -> In c (Text.lstrip s).
Proof.
  intros Hin Hc. induction s as [|x s IH]; [contradiction|].
  cbn. destruct (Text.is_space x) eqn:Hx.
  - destruct Hin as [<-|Hin]; [congruence|auto].
  - exact Hin.
Qed.

Lemma in_strip (c : ascii) (s : Text.text) :
  In c s -> Text.is_space c = false -> In c (Text.strip s).
Proof.
  intros Hin Hc. unfold Text.strip.
  apply (proj1 (in_rev _ _)), in_lstrip; [|exact Hc].
  apply (proj1 (in_rev _ _)), in_lstrip; assumption.
Qed.

(** What [int] and [float] skip, [str.strip] removes. *)
Lemma c_space_is_space (c : ascii) :
  Text.is_c_space c = true -> Text.is_space c = true.
Proof.
  unfold Text.is_c_space, Text.is_space. cbv zeta. intros H.
  apply orb_true_iff in H as [H|H]; [rewrite H; reflexivity|].
  apply N.eqb_eq in H. rewrite H. reflexivity.
Qed.

Lemma in_c_lstrip (c : ascii) (s : Text.text) :
  In c s -> Text.is_space c = false -> In c (Text.c_lstrip s).
Proof.
  intros Hin Hc. induction s as [|x s IH]; [contradiction|].
  cbn. destruct (Text.is_c_space x) eqn:Hx.
  - destruct Hin as [<-|Hin]; [|auto].
    apply c_space_is_space in Hx. congruence.
  - exact Hin.
Qed.

Lemma in_c_strip (c : ascii) (s : Text.text) :
  In c s -> Text.is_space c = false -> In c (Text.c_strip s).
Proof.
  intros Hin Hc. unfold Text.c_strip.
  apply (proj1 (in_rev _ _)), in_c_lstrip; [|exact Hc].
  apply (proj1 (in_rev _ _)), in_c_lstrip; assumption.
Qed.

Lemma in_read_sign (c : ascii) (s : Text.text) :
  In c s -> Text.is_char "-" c = false -> Text.is_char "+" c = false ->
  In c (snd (Text.read_sign s)).
Proof.
  intros Hin Hm Hp. destruct s as [|x s]; [contradiction|].
  unfold Text.read_sign.
  destruct (Text.is_char "-" x) eqn:Hx; cbn [snd].
  - destruct Hin as [<-|Hin]; [|exact Hin].
    unfold Text.is_char in *. apply Ascii.eqb_eq in Hx. subst.
    rewrite Ascii.eqb_refl in Hm. discriminate.
  - destruct (Text.is_char "+" x) eqn:Hx'; cbn [snd]; [|exact Hin].
    destruct Hin as [<-|Hin]; [|exact Hin].
    unfold Text.is_char in *. apply Ascii.eqb_eq in Hx'. subst.
    rewrite Ascii.eqb_refl in Hp. discriminate.
Qed.

Lemma read_digits_junk (c : ascii) (s : Text.text) (acc : Z) (n : nat) (b : bool) :
  In c s -> Text.digit_val c = None -> Text.is_char "_" c = false ->
  Text.read_digits acc n b s = None.
Proof.
  intros Hin Hd Hu. revert acc n b.
  induction s as [|x s IH]; intros acc n b; [contradiction|].
  cbn. destruct Hin as [<-|Hin].
  - rewrite Hd, Hu. reflexivity.
  - destruct (Text.digit_val x); [apply IH, Hin|].
    destruct (Text.is_char "_" x && b); [apply IH, Hin|reflexivity].
Qed.

Lemma break_at_in (p : ascii -> bool) (c : ascii) (s : Text.text) :
  In c s -> p c = false ->
  In c (fst (Text.break_at p s))
  \/ exists t, snd (Text.break_at p s) = Some t /\ In c t.
Proof.
  intros Hin Hp. induction s as [|x s IH]; [contradiction|].
  cbn. destruct (p x) eqn:Hx; cbn.
  - destruct Hin as [<-|Hin]; [congruence|]. right. eauto.
  - destruct (Text.break_at p s) as [a b]. cbn in *.
    destruct Hin as [<-|Hin]; [left; left; reflexivity|].
    destruct (IH Hin) as [H|H]; [left; right; exact H|right; exact H].
Qed.

Lemma split_in (sep c : ascii) (s : Text.text) :
  In c s -> Text.is_char sep c = false ->
  Exists (In c) (Text.split sep s).
Proof.
  intros Hin Hc. induction s as [|x s IH]; [contradiction|].
  cbn. destruct (Text.is_char sep x) eqn:Hx.
  - destruct Hin as [<-|Hin]; [congruence|].
    apply Exists_cons_tl, IH, Hin.
  - destruct Hin as [<-|Hin].
    + destruct (Text.split sep s); apply Exists_cons_hd; left; reflexivity.
    + specialize (IH Hin). destruct (Text.split sep s) as [|w ws].
      * inversion IH.
      * inversion IH; subst; [apply Exists_cons_hd; right; assumption|].
        apply Exists_cons_tl. assumption.
Qed.

(** What a character that is no part of a number is not. *)
Lemma junk_char (c : ascii) :
  number_char c = false ->
  Text.is_space c = false
  /\ Text.digit_val c = None
  /\ Text.is_char "_" c = false
  /\ Text.is_char "-" c = false
  /\ Text.is_char "+" c = false
  /\ Text.is_char "." c = false
  /\ Text.is_char ":" c = false
  /\ Text.is_char "e" c || Text.is_char "E" c = false
  /\ Text.contains (Text.lower c) (list_ascii_of_string "infinity") = false
  /\ Text.contains (Text.lower c) (list_ascii_of_string "nan") = false
  /\ Text.contains (Text.lower c) (list_ascii_of_string "inf") = false.
Proof.
  destruct c as [[] [] [] [] [] [] [] []]; vm_compute; intros H;
    first [discriminate H | repeat split; reflexivity].
Qed.

Lemma is_word_junk (w : string) (body : Text.text) (c : ascii) :
  In c body ->
  Text.contains (Text.lower c) (list_ascii_of_string w) = false ->
  Text.is_word w body = false.
Proof.
  intros Hin Hc. destruct (Text.is_word w body) eqn:Hw; [|reflexivity].
  unfold Text.is_word, Text.text_eqb in Hw. apply String.eqb_eq in Hw.
  apply (f_equal list_ascii_of_string) in Hw.
  rewrite !list_ascii_of_string_of_list_ascii in Hw.
  assert (In (Text.lower c) (list_ascii_of_string w)) as Hl
    by (rewrite <- Hw; apply in_map, Hin).
  apply TextFacts.contains_true in Hl. congruence.
Qed.

Lemma digits_junk (c : ascii) (s : Text.text) :
  In c s -> number_char c = false -> Text.digits s = None.
Proof.
  intros Hin Hc. destruct (junk_char c Hc) as (_ & Hd & Hu & _).
  eapply read_digits_junk; eassumption.
Qed.

Lemma opt_digits_junk (c : ascii) (s : Text.text) :
  In c s -> number_char c = false -> Text.opt_digits s = None.
Proof.
  intros Hin Hc. destruct s as [|x s]; [contradiction|].
  apply (digits_junk c); assumption.
Qed.

Lemma py_int_junk (c : ascii) (s : Text.text) :
  In c s -> number_char c = false -> Text.py_int s = Raise ValueError.
Proof.
  intros Hin Hc. destruct (junk_char c Hc) as (Hs & _ & _ & Hm & Hp & _).
  unfold Text.py_int.
  pose proof (in_read_sign c _ (in_c_strip c s Hin Hs) Hm Hp) as Hb.
  destruct (Text.read_sign (Text.c_strip s)) as [neg body]. cbn [snd] in Hb.
  rewrite (digits_junk c body Hb Hc). reflexivity.
Qed.

Lemma read_decimal_junk (c : ascii) (s : Text.text) :
  In c s -> number_char c = false -> Text.read_decimal s = None.
Proof.
  intros Hin Hc.
  destruct (junk_char c Hc) as (_ & _ & _ & Hm & Hp & Hdot & _ & He & _).
  unfold Text.read_decimal.
  pose proof (break_at_in (fun c => Text.is_char "e" c || Text.is_char "E" c)
                c s Hin He) as Hparts.
  destruct (Text.break_at _ s) as [mant expo]. cbn [fst snd] in Hparts.
  assert ((let (ipart, fpart) := Text.break_at (Text.is_char ".") mant in
           In c ipart \/ In c (default [] fpart))
          \/ exists es, expo = Some es /\ In c es) as Hcase.
  { destruct Hparts as [Hmant|Hexpo]; [left|right; exact Hexpo].
    pose proof (break_at_in (Text.is_char ".") c mant Hmant Hdot) as Hd.
    destruct (Text.break_at (Text.is_char ".") mant) as [ipart fpart].
    cbn [fst snd] in Hd. destruct Hd as [Hi|(t & -> & Ht)]; [left|right]; assumption. }
  destruct (Text.break_at (Text.is_char ".") mant) as [ipart fpart].
  destruct Hcase as [[Hi|Hf]|(es & -> & Hes)].
  - rewrite (opt_digits_junk c ipart Hi Hc).
    destruct ipart; [contradiction|]. reflexivity.
  - rewrite (opt_digits_junk c _ Hf Hc).
    destruct ipart, (default [] fpart); try contradiction;
      try reflexivity; destruct (Text.opt_digits _) as [[]|]; reflexivity.
  - pose proof (in_read_sign c es Hes Hm Hp) as Hb.
    destruct (Text.read_sign es) as [neg body]. cbn [snd] in Hb.
    rewrite (digits_junk c body Hb Hc).
    destruct ipart, (default [] fpart); try reflexivity;
      repeat (destruct (Text.opt_digits _) as [[]|]; try reflexivity).
Qed.

Lemma py_float_junk (c : ascii) (s : Text.text) :
  In c s -> number_char c = false -> Text.py_float s = Raise ValueError.
Proof.
  intros Hin Hc.
  destruct (junk_char c Hc) as (Hs & _ & _ & Hm & Hp & _ & _ & _ & Hinfy & Hnan & Hinf).
  unfold Text.py_float.
  pose proof (in_read_sign c _ (in_c_strip c s Hin Hs) Hm Hp) as Hb.
  destruct (Text.read_sign (Text.c_strip s)) as [neg body]. cbn [snd] in Hb.
  rewrite (is_word_junk "inf" body c Hb Hinf).
  rewrite (is_word_junk "infinity" body c Hb Hinfy).
  rewrite (is_word_junk "nan" body c Hb Hnan). cbn [orb].
  rewrite (read_decimal_junk c body Hb Hc). reflexivity.
Qed.

Lemma hours_of_text_junk (c : ascii) (s : string) :
  In c (list_ascii_of_string s) -> number_char c = false ->
  except_all (hours_of_text s) 0%float = 0%float.
Proof.
  intros Hin Hc. destruct (junk_char c Hc) as (Hs & _ & _ & _ & _ & _ & Hcolon & _).
  unfold hours_of_text.
  pose proof (in_strip c _ Hin Hs) as Hv.
  set (value := Text.strip (list_ascii_of_string s)) in *.
  destruct (Text.contains ":" value).
  - pose proof (split_in ":" c value Hv) as Hparts.
    assert (Text.is_char ":" c = false) as Hc' by exact Hcolon.
    specialize (Hparts Hc').
    destruct (Text.split ":" value) as [|h [|m [|]]]; try reflexivity.
    inversion Hparts as [? ? Hh|? ? Hrest]; subst.
    + rewrite (py_int_junk c h Hh Hc). reflexivity.
    + inversion Hrest as [? ? Hm|? ? Hnil]; subst; [|inversion Hnil].
      rewrite (py_int_junk c m Hm Hc).
      destruct (Text.py_int h); reflexivity.
  - rewrite (py_float_junk c value Hv Hc). reflexivity.
Qed.

End JunkFacts.

Module SplitFacts.

Lemma split_nonempty (sep : ascii) (s : Text.text) : Text.split sep s <> [].
Proof.
  destruct s as [|x s]; cbn; [discriminate|].
  destruct (Text.is_char sep x); [discriminate|].
  destruct (Text.split sep s); discriminate.
Qed.

(** Splitting distributes over a separator. *)
Lemma split_app (sep : ascii) (a r : Text.text) :
  Text.split sep (a ++ sep :: r) = Text.split sep a ++ Text.split sep r.
Proof.
  induction a as [|x a IH]; cbn.
  - unfold Text.is_char at 1. rewrite Ascii.eqb_refl. reflexivity.
  - destruct (Text.is_char sep x); [rewrite IH; reflexivity|].
    rewrite IH. pose proof (split_nonempty sep a) as Hne.
    destruct (Text.split sep a) as [|w ws]; [congruence|reflexivity].
Qed.

Lemma split_length (sep : ascii) (s : Text.text) : (1 <= length (Text.split sep s))%nat.
Proof.
  pose proof (split_nonempty sep s). destruct (Text.split sep s); cbn; [congruence|lia].
Qed.

End SplitFacts.

Module StripFacts.

Lemma lstrip_spaces (p t : Text.text) :
  Forall (fun c => Text.is_space c = true) p ->
  Text.lstrip (p ++ t) = Text.lstrip t.
Proof.
  induction 1 as [|c p Hc _ IH]; [reflexivity|].
  cbn. rewrite Hc. exact IH.
Qed.

Lemma lstrip_all_spaces (p : Text.text) :
  Forall (fun c => Text.is_space c = true) p -> Text.lstrip p = [].
Proof.
  intros H. rewrite <- (app_nil_r p), lstrip_spaces by assumption. reflexivity.
Qed.

(** Stripping on the left leaves a text that is empty or starts with a
    character that is no space. *)
Lemma lstrip_app (t p : Text.text) :
  Text.lstrip t <> [] -> Text.lstrip (t ++ p) = Text.lstrip t ++ p.
Proof.
  induction t as [|c t IH]; cbn; [congruence|].
  destruct (Text.is_space c); [exact IH|reflexivity].
Qed.

Lemma lstrip_empty_spaces (t : Text.text) :
  Text.lstrip t = [] -> Forall (fun c => Text.is_space c = true) t.
Proof.
  induction t as [|c t IH]; cbn; [constructor|].
  destruct (Text.is_space c) eqn:Hc; [|discriminate].
  intros H. constructor; auto.
Qed.

Lemma strip_padding (p1 t p2 : Text.text) :
  Forall (fun c => Text.is_space c = true) p1 ->
  Forall (fun c => Text.is_space c = true) p2 ->
  Text.strip (p1 ++ t ++ p2) = Text.strip t.
Proof.
  intros H1 H2. unfold Text.strip. rewrite lstrip_spaces by assumption.
  destruct (Text.lstrip t) as [|x u] eqn:Ht.
  - apply lstrip_empty_spaces in Ht.
    rewrite (lstrip_all_spaces (t ++ p2)) by (apply Forall_app; split; assumption).
    reflexivity.
  - rewrite lstrip_app by congruence. rewrite Ht, rev_app_distr.
    rewrite lstrip_spaces; [reflexivity|].
    apply Forall_rev, H2.
Qed.

End StripFacts.

Module DigitFacts.

Lemma read_digits_chars (s : Text.text) (acc : Z) (n : nat) (b : bool) (v : Z) (k : nat) :
  Text.read_digits acc n b s = Some (v, k) ->
  Forall (fun c => digit_char c = true) s.
Proof.
  revert acc n b. induction s as [|c s IH]; intros acc n b; cbn; [constructor|].
  unfold digit_char.
  destruct (Text.digit_val c) as [d|] eqn:Hd.
  - intros H. constructor; [|eapply IH, H].
    rewrite bool_decide_eq_true_2 by congruence. reflexivity.
  - destruct (Text.is_char "_" c) eqn:Hu; cbn [andb]; [|discriminate].
    destruct b; [|discriminate].
    intros H. constructor; [|eapply IH, H]. rewrite Hu. apply orb_true_r.
Qed.

(** What a digit or an underscore is not. *)
Lemma digit_char_facts (c : ascii) :
  digit_char c = true ->
  Text.is_space c = false
  /\ Text.is_char "-" c = false
  /\ Text.is_char "+" c = false
  /\ Text.is_char "." c = false
  /\ Text.is_char ":" c = false
  /\ Text.is_char "e" c || Text.is_char "E" c = false
  /\ Text.contains (Text.lower c) (list_ascii_of_string "infinity") = false
  /\ Text.contains (Text.lower c) (list_ascii_of_string "nan") = false
  /\ Text.contains (Text.lower c) (list_ascii_of_string "inf") = false.
Proof.
  destruct c as [[] [] [] [] [] [] [] []]; vm_compute; intros H;
    first [discriminate H | repeat split; reflexivity].
Qed.

Lemma break_at_none (p : ascii -> bool) (s : Text.text) :
  Forall (fun c => p c = false) s -> Text.break_at p s = (s, None).
Proof.
  induction 1 as [|c s Hc _ IH]; cbn; [reflexivity|].
  rewrite Hc, IH. reflexivity.
Qed.

Lemma lstrip_id (s : Text.text) :
  Forall (fun c => Text.is_space c = false) s -> Text.lstrip s = s.
Proof. destruct 1 as [|c s Hc _]; cbn; [reflexivity|]. rewrite Hc. reflexivity. Qed.

Lemma strip_id (s : Text.text) :
  Forall (fun c => Text.is_space c = false) s -> Text.strip s = s.
Proof.
  intros H. unfold Text.strip. rewrite (lstrip_id s H).
  rewrite lstrip_id by (apply Forall_rev, H). apply rev_involutive.
Qed.

Lemma c_lstrip_id (s : Text.text) :
  Forall (fun c => Text.is_space c = false) s -> Text.c_lstrip s = s.
Proof.
  destruct 1 as [|c s Hc _]; cbn; [reflexivity|].
  destruct (Text.is_c_space c) eqn:Hx; [|reflexivity].
  apply JunkFacts.c_space_is_space in Hx. congruence.
Qed.

Lemma c_strip_id (s : Text.text) :
  Forall (fun c => Text.is_space c = false) s -> Text.c_strip s = s.
Proof.
  intros H. unfold Text.c_strip. rewrite (c_lstrip_id s H).
  rewrite c_lstrip_id by (apply Forall_rev, H). apply rev_involutive.
Qed.

Lemma read_sign_digits (s : Text.text) :
  Forall (fun c => digit_char c = true) s -> Text.read_sign s = (false, s).
Proof.
  destruct 1 as [|c s Hc _]; [reflexivity|].
  destruct (digit_char_facts c Hc) as (_ & Hm & Hp & _).
  unfold Text.read_sign. rewrite Hm, Hp. reflexivity.
Qed.

(** A text of digits read as a decimal is the integer it spells. *)
Lemma read_decimal_digits (s : Text.text) (v : Z) (n : nat) :
  Text.digits s = Some (v, n) -> Text.read_decimal s = Some (v, 0).
Proof.
  intros Hd. pose proof (read_digits_chars _ _ _ _ _ _ Hd) as Hall.
  unfold Text.read_decimal.
  rewrite break_at_none.
  2:{ eapply List.Forall_impl; [|exact Hall]. intros c Hc.
      apply (digit_char_facts c Hc). }
  rewrite break_at_none.
  2:{ eapply List.Forall_impl; [|exact Hall]. intros c Hc.
      apply (digit_char_facts c Hc). }
  cbn [default].
  destruct s as [|c s]; [discriminate Hd|].
  cbn [Text.opt_digits]. rewrite Hd. cbn.
  f_equal. f_equal; lia.
Qed.

Lemma is_word_digits (w : string) (s : Text.text) (c : ascii) :
  In c s -> Text.contains (Text.lower c) (list_ascii_of_string w) = false ->
  Text.is_word w s = false.
Proof.
  intros Hin Hc. destruct (Text.is_word w s) eqn:Hw; [|reflexivity].
  unfold Text.is_word, Text.text_eqb in Hw. apply String.eqb_eq in Hw.
  apply (f_equal list_ascii_of_string) in Hw.
  rewrite !list_ascii_of_string_of_list_ascii in Hw.
  assert (In (Text.lower c) (list_ascii_of_string w)) as Hl
    by (rewrite <- Hw; apply in_map, Hin).
  apply TextFacts.contains_true in Hl. congruence.
Qed.

(** [float] of a text of digits is [float] of the integer it spells. *)
Lemma py_float_digits (s : Text.text) (v : Z) (n : nat) :
  Text.digits s = Some (v, n) -> Text.py_float s = Ok (Py.float_of_Z v).
Proof.
  intros Hd. pose proof (read_digits_chars _ _ _ _ _ _ Hd) as Hall.
  assert (0 <= v) as Hv by (eapply TextFacts.read_digits_nonneg; [|exact Hd]; lia).
  unfold Text.py_float.
  rewrite c_strip_id.
  2:{ eapply List.Forall_impl; [|exact Hall]. intros c Hc.
      apply (digit_char_facts c Hc). }
  rewrite (read_sign_digits s Hall).
  destruct s as [|c s]; [discriminate Hd|].
  inversion Hall as [|? ? Hc _]; subst.
  destruct (digit_char_facts c Hc) as (_ & _ & _ & _ & _ & _ & Hinfy & Hnan & Hinf).
  rewrite (is_word_digits "inf" (c :: s) c (or_introl eq_refl) Hinf).
  rewrite (is_word_digits "infinity" (c :: s) c (or_introl eq_refl) Hinfy).
  rewrite (is_word_digits "nan" (c :: s) c (or_introl eq_refl) Hnan).
  cbn [orb]. rewrite (read_decimal_digits _ _ _ Hd).
  destruct v as [|m|m]; [reflexivity| |lia].
  unfold Text.nearest, Py.float_of_Z. cbn [Z.leb Z.compare].
  change (10 ^ 0) with 1. rewrite Z.mul_1_r. reflexivity.
Qed.

Lemma digits_no_colon (s : Text.text) (v : Z) (n : nat) :
  Text.digits s = Some (v, n) -> Text.contains ":" (Text.strip s) = false.
Proof.
  intros Hd. pose proof (read_digits_chars _ _ _ _ _ _ Hd) as Hall.
  rewrite strip_id.
  2:{ eapply List.Forall_impl; [|exact Hall]. intros c Hc.
      apply (digit_char_facts c Hc). }
  destruct (Text.contains ":" s) eqn:Hc; [|reflexivity].
  apply TextFacts.contains_true in Hc.
  rewrite List.Forall_forall in Hall. specialize (Hall _ Hc).
  destruct (digit_char_facts _ Hall) as (_ & _ & _ & _ & Hcolon & _).
  discriminate Hcolon.
Qed.

End DigitFacts.


(** What a minus sign before digits gives: the opposite of the double of
    the integer the digits spell. *)
Lemma minus_digits (s : string) (t : Text.text) (d : Z) (n : nat) :
  list_ascii_of_string s = "-"%char :: t ->
  Text.digits t = Some (d, n) ->
  parse_hours (VStr s) = Ok (- Py.float_of_Z d)%float.
Proof.
  intros Hs Hd. pose proof (DigitFacts.read_digits_chars _ _ _ _ _ _ Hd) as Hall.
  assert (0 <= d) as Hpos by (eapply TextFacts.read_digits_nonneg; [|exact Hd]; lia).
  assert (Forall (fun c => Text.is_space c = false) ("-"%char :: t)) as Hsp.
  { constructor; [reflexivity|].
    eapply List.Forall_impl; [|exact Hall]. intros c Hc.
    apply (DigitFacts.digit_char_facts c Hc). }
  assert (Text.contains ":" ("-"%char :: t) = false) as Hcolon.
  { rewrite TextFacts.contains_cons. change (Text.is_char ":" "-") with false.
    cbn [orb]. destruct (Text.contains ":" t) eqn:Hc; [|reflexivity].
    apply TextFacts.contains_true in Hc.
    rewrite List.Forall_forall in Hall. specialize (Hall _ Hc).
    destruct (DigitFacts.digit_char_facts _ Hall) as (_ & _ & _ & _ & Hx & _).
    discriminate Hx. }
  unfold parse_hours. cbn [pd_isna]. unfold hours_of_text.
  rewrite Hs, (DigitFacts.strip_id _ Hsp), Hcolon.
  unfold Text.py_float. rewrite (DigitFacts.c_strip_id _ Hsp).
  change (Text.read_sign ("-"%char :: t)) with (true, t).
  destruct t as [|c t]; [discriminate Hd|].
  inversion Hall as [|? ? Hc _]; subst.
  destruct (DigitFacts.digit_char_facts c Hc)
    as (_ & _ & _ & _ & _ & _ & Hinfy & Hnan & Hinf).
  rewrite (DigitFacts.is_word_digits "inf" (c :: t) c (or_introl eq_refl) Hinf).
  rewrite (DigitFacts.is_word_digits "infinity" (c :: t) c (or_introl eq_refl) Hinfy).
  rewrite (DigitFacts.is_word_digits "nan" (c :: t) c (or_introl eq_refl) Hnan).
  cbn [orb]. rewrite (DigitFacts.read_decimal_digits _ _ _ Hd).
  destruct d as [|m|m]; [reflexivity| |lia].
  cbn [except_all]. f_equal.
  rewrite <- FloatFacts.float_of_Z_opp by discriminate.
  unfold Text.nearest, Py.float_of_Z. cbn [Z.leb Z.compare].
  change (10 ^ 0) with 1. rewrite Z.mul_1_r. reflexivity.
Qed.

(** C5, as the code has it.  The parser never raises on an empty cell, a
    float, an ASCII text or an integer that fits a double, and always
    returns a double there.  The result is 0.0 for an empty cell and for a
    text that does not parse, and it is not below zero for a number that
    is not below zero and for a text with no minus sign, the text that
    spells NaN apart.  Nothing is clamped: a float is returned as it is,
    an integer as the double of it, which for an integer below zero is the
    opposite of the double of its absolute value and not above zero, and
    a minus sign before digits gives the opposite of the double of the
    integer that the digits spell. *)
Theorem parse_hours_total (v : value) :
  readable (Some v) = true ->
  ascii_value v = true ->
  exists f,
    parse_hours v = Ok f
    /\ (pd_isna v = true -> f = 0%float)
    /\ (forall s e, v = VStr s -> hours_of_text s = Raise e -> f = 0%float)
    /\ (forall x, v = VFloat x -> (0 <=? x)%float = true -> (0 <=? f)%float = true)
    /\ (forall z, v = VInt z -> 0 <= z -> (0 <=? f)%float = true)
    /\ (forall s, v = VStr s ->
          Text.contains "-" (list_ascii_of_string s) = false ->
          is_nan f = false -> (0 <=? f)%float = true)
    /\ (forall x, v = VFloat x -> is_nan x = false -> f = x)
    /\ (forall z, v = VInt z ->
          f = Py.float_of_Z z
          /\ (z < 0 ->
              f = (- Py.float_of_Z (- z))%float /\ (f <=? 0)%float = true))
    /\ (forall s t d n, v = VStr s ->
          list_ascii_of_string s = "-"%char :: t ->
          Text.digits t = Some (d, n) ->
          f = (- Py.float_of_Z d)%float /\ (f <=? 0)%float = true).
Proof.
  intros Hr _. destruct v as [|z|x|s].
  - exists 0%float. split; [reflexivity|]. split; [reflexivity|].
    repeat (split; [discriminate|]). discriminate.
  - unfold readable, fits_double in Hr. apply negb_true_iff in Hr.
    exists (Py.float_of_Z z). unfold parse_hours, Py.float_of_int. cbn [pd_isna].
    rewrite Hr. split; [reflexivity|]. split; [discriminate|].
    split; [discriminate|]. split; [discriminate|].
    split; [intros z' [= <-] Hz; apply FloatFacts.float_of_Z_nonneg, Hz|].
    split; [discriminate|]. split; [discriminate|]. split; [|discriminate].
    intros z' [= <-]. split; [reflexivity|]. intros Hz.
    assert (Py.float_of_Z z = (- Py.float_of_Z (- z))%float) as Heq.
    { rewrite <- FloatFacts.float_of_Z_opp by lia. f_equal. lia. }
    split; [exact Heq|]. rewrite Heq.
    apply FloatFacts.opp_nonneg_leb, FloatFacts.float_of_Z_nonneg_sf. lia.
  - unfold parse_hours. cbn [pd_isna]. destruct (is_nan x) eqn:Hn.
    + exists 0%float. split; [reflexivity|]. split; [reflexivity|].
      split; [discriminate|]. split; [reflexivity|]. split; [discriminate|].
      split; [discriminate|]. split; [congruence|]. split; discriminate.
    + exists x. split; [reflexivity|]. split; [discriminate|].
      split; [discriminate|]. split; [congruence|]. split; [discriminate|].
      split; [discriminate|]. split; [congruence|]. split; discriminate.
  - exists (except_all (hours_of_text s) 0%float). unfold parse_hours. cbn [pd_isna].
    split; [reflexivity|]. split; [discriminate|].
    split; [intros s' e [= <-] He; rewrite He; reflexivity|].
    split; [discriminate|]. split; [discriminate|].
    split; [|split; [discriminate|split; [discriminate|]]].
    + intros s' [= <-] Hs Hn.
      destruct (hours_of_text s) as [f|] eqn:Hf; cbn [except_all] in *.
      * apply FloatFacts.nonneg_leb. eapply TextFacts.hours_of_text_nonneg; eassumption.
      * reflexivity.
    + intros s' t d n [= <-] Hs Hd.
      pose proof (minus_digits s t d n Hs Hd) as Hm.
      unfold parse_hours in Hm. cbn [pd_isna] in Hm. injection Hm as ->.
      split; [reflexivity|].
      apply FloatFacts.opp_nonneg_leb, FloatFacts.float_of_Z_nonneg_sf.
      eapply TextFacts.read_digits_nonneg; [|exact Hd]. lia.
Qed.

(** * The properties on the sample sheet *)

Lemma sample_report :
  snd (Sample.run Sample.w0 0 30000 5000 None) = Ok Sample.report_35000.
Proof. vm_compute. reflexivity. Qed.

Lemma sample_hours_readable :
  Forall (fun r => hours_readable r = true) Sample.sheet.
Proof. repeat constructor. Qed.

(** The Friday row of the sample: eight hours at one and a half times the
    hourly wage. *)
Lemma rest_day_multiplier_witness :
  exists e,
    breakdown_df Sample.report_35000 !! 1%nat = Some e
    /\ e_daily_pay e
       = Py.round2 (e_total_hours e * hourly_wage Sample.report_35000 * 1.5
                    + e_extra_hours e * hourly_wage Sample.report_35000)%float.
Proof.
  destruct (breakdown_df Sample.report_35000 !! 1%nat) as [e|] eqn:He;
    [|vm_compute in He; discriminate].
  exists e. split; [reflexivity|].
  refine (proj1 (proj2 (rest_day_multiplier Sample.to_datetime Sample.group_sum
    Sample.w0 0%nat Sample.sheet (Py.PInt 30000) (Py.PInt 5000) None
    Sample.report_35000 1%nat e {| year := 2024; month := 1; day := 5 |}
    _ _ He _)) _).
  - reflexivity.
  - exact sample_report.
  - vm_compute in He. injection He as <-. reflexivity.
  - left. reflexivity.
Defined.

Lemma sample_report_pandas :
  snd (calculate_salary Sample.to_datetime Pandas.group_sum Sample.w0 0
         (Py.PInt 30000) (Py.PInt 5000) None)
  = Ok Sample.report_pandas.
Proof. vm_compute. reflexivity. Qed.

(** On the sample every monthly row has the fixed pay of 35000 and the
    compensated sum of the pays of its employee. *)
Lemma final_monthly_pay_witness :
  Forall (fun m =>
            m_fixed_monthly_pay m = Py.PInt 35000
            /\ m_daily_pay m
               = Pandas.group_sum
                   (e_daily_pay <$>
                      filter (fun e => e_employee_id e = Some (m_employee_id m)
                                       /\ e_employee_name e = Some (m_employee_name m))
                        (breakdown_df Sample.report_pandas))
            /\ m_final_monthly_pay m = (35000 + m_daily_pay m)%float)
    (monthly_totals Sample.report_pandas).
Proof.
  apply Forall_forall.
  destruct (final_monthly_pay_is_fixed_plus_sum Sample.to_datetime
              Sample.w0 0%nat Sample.sheet (Py.PInt 30000) (Py.PInt 5000) None
              Sample.report_pandas eq_refl sample_report_pandas)
    as [(fixed & Hfixed & Hrows) _].
  injection Hfixed as <-. intros m Hin.
  destruct (Hrows m Hin) as (_ & Hfix & Hsum & _ & _ & f & Hf & Hfinal & _).
  injection Hf as <-. auto.
Defined.

Lemma wage_rate_scalars_witness :
  daily_wage Sample.report_35000 = Py.int_quotient (35000 * 12) 365
  /\ hourly_wage Sample.report_35000 = (daily_wage Sample.report_35000 / 8)%float.
Proof.
  destruct (wage_rate_scalars Sample.to_datetime Sample.group_sum
              Sample.w0 0%nat Sample.sheet (Py.PInt 30000) (Py.PInt 5000) None
              Sample.report_35000 eq_refl sample_report)
    as (_ & Hh & _ & Hex).
  destruct (Hex eq_refl eq_refl) as (Hd & _). auto.
Defined.

(** C5 as the specification states it fails at the number [-3], which the
    parser returns as [-3.0]. *)
Lemma parse_hours_negative_number :
  parse_hours (VInt (-3)) = Ok (-3)%float /\ ((-3) <? 0)%float = true.
Proof. split; reflexivity. Qed.

Lemma parse_hours_total_witness :
  exists f, parse_hours (VStr "8:30") = Ok f.
Proof.
  destruct (parse_hours_total (VStr "8:30") eq_refl eq_refl) as (f & Hf & _).
  exists f. exact Hf.
Defined.

(** C6 as the specification states it fails on a sheet with a record that
    has an id and no name: the record has its row in the breakdown and the
    monthly totals have no row for it. *)
Lemma unnamed_employee_dropped :
  match snd (Sample.run Sample.w_unnamed 0 30000 5000 None) with
  | Ok rep =>
      (Some "E3"%string, None) ∈
        (fun r => (employee_id r, employee_name r)) <$> (Sample.sheet ++ [Sample.unnamed])
      /\ e_employee_id <$> breakdown_df rep
         = [Some "E1"; Some "E1"; Some "E2"; Some "E3"]%string
      /\ monthly_key <$> monthly_totals rep
         = [("E1", "Asha"); ("E2", "Bilal")]%string
  | Raise _ => False
  end.
Proof.
  vm_compute. split; [|split; reflexivity].
  do 3 apply list_elem_of_further. apply list_elem_of_here.
Qed.

Lemma monthly_totals_witness :
  NoDup (monthly_key <$> monthly_totals Sample.report_35000).
Proof.
  exact (proj1 (monthly_totals_one_row_per_employee Sample.to_datetime
    Sample.group_sum Sample.w0 0%nat Sample.sheet (Py.PInt 30000) (Py.PInt 5000)
    None Sample.report_35000 eq_refl sample_report)).
Defined.



(** C8 as the specification states it fails at a basic salary of -30000:
    the call returns, with a negative hourly wage and all the rows. *)
Lemma negative_salary_accepted :
  match snd (Sample.run Sample.w0 0 (-30000) 0 None) with
  | Ok rep =>
      (hourly_wage rep <? 0)%float = true
      /\ length (breakdown_df rep) = 3%nat
      /\ length (monthly_totals rep) = 2%nat
  | Raise _ => False
  end.
Proof. vm_compute. auto. Qed.

Lemma negative_salary_witness :
  exists rep,
    snd (Sample.run Sample.w0 0 (-30000) 0 None) = Ok rep
    /\ daily_wage rep = (- Py.int_quotient (30000 * 12) 365)%float.
Proof.
  destruct (negative_salary_is_computed Sample.to_datetime Sample.group_sum
              Sample.w0 0%nat Sample.sheet 30000 0 None
              eq_refl ltac:(discriminate) sample_hours_readable eq_refl)
    as (rep & Hrep & _ & Hd & _).
  exists rep. split; [exact Hrep|]. apply Hd. discriminate.
Defined.

(** C9 as the specification states it fails when the two calls are given
    the same table: the first call has changed it, and the second call
    reports no time of arrival or departure where the first reported one.
    The pays are the same. *)
Lemma second_call_on_same_table_differs :
  let first := Sample.run Sample.w0 0 30000 5000 None in
  let second := Sample.run (fst first) 0 30000 5000 None in
  let nine := CTime {| hour := 9; minute := 0; second := 0; microsecond := 0 |} in
  fmap (M := list) in_time Sample.sheet
  = [Sample.at_ 2024 1 4 9 0; Sample.at_ 2024 1 5 9 0; CValue VNull]
  /\ fmap (M := option) (fmap (M := list) in_time) (frames (fst first) !! 0%nat)
     = Some [nine; nine; CNaT]
  /\ fmap (M := result) (fun rep => fmap (M := list) e_in_time (breakdown_df rep))
       (snd first)
     = Ok [nine; nine; CNaT]
  /\ fmap (M := result) (fun rep => fmap (M := list) e_in_time (breakdown_df rep))
       (snd second)
     = Ok [CNaT; CNaT; CNaT]
  /\ snd first <> snd second.
Proof.
  vm_compute. repeat split; try reflexivity. intros H. discriminate H.
Qed.

Lemma two_calls_witness :
  snd (Sample.run Sample.w_two 0 30000 5000 None)
  = snd (Sample.run (fst (Sample.run Sample.w_two 0 30000 5000 None)) 1 30000 5000 None).
Proof.
  exact (proj1 (two_calls_same_result Sample.to_datetime Sample.group_sum
    Sample.w_two 0%nat 1%nat Sample.sheet (Py.PInt 30000) (Py.PInt 5000) None
    ltac:(discriminate) eq_refl eq_refl)).
Defined.


(** * Further properties

    Properties of the parser, of the engine and of the application that
    the code shows besides those above. *)

(** ** Texts that are no hours *)


(** X1. A text that holds an ASCII character which is neither white space nor
    one of the characters numbers and [HH:MM] are written with gives 0.0,
    wherever the character stands. *)
Theorem text_with_other_character_is_zero (s : string) (c : ascii) :
  In c (list_ascii_of_string s) ->
  number_char c = false ->
  parse_hours (VStr s) = Ok 0%float.
Proof.
  intros Hin Hc. unfold parse_hours. cbn [pd_isna].
  rewrite (JunkFacts.hours_of_text_junk c s Hin Hc). reflexivity.
Qed.


(** X2. A text with two colons or more is no [HH:MM]: it gives 0.0, whatever
    stands between the colons. *)
Theorem more_than_one_colon_is_zero (s : string) (a b c : Text.text) :
  Text.strip (list_ascii_of_string s) = a ++ ":"%char :: b ++ ":"%char :: c ->
  parse_hours (VStr s) = Ok 0%float.
Proof.
  intros Hs. unfold parse_hours. cbn [pd_isna]. unfold hours_of_text.
  rewrite Hs, TextFacts.contains_separator.
  rewrite !SplitFacts.split_app.
  pose proof (SplitFacts.split_length ":" a) as Ha.
  pose proof (SplitFacts.split_length ":" b) as Hb.
  pose proof (SplitFacts.split_length ":" c) as Hc.
  assert (3 <= length (Text.split ":" a ++ Text.split ":" b ++ Text.split ":" c))%nat
    as Hlen by (rewrite !length_app; lia).
  destruct (Text.split ":" a ++ Text.split ":" b ++ Text.split ":" c)
    as [|h [|m [|x l]]]; cbn in Hlen; try lia.
  reflexivity.
Qed.


(** X3. White space before and after a text does not change its hours. *)
Theorem padding_is_ignored (s s' : string) (p1 p2 : Text.text) :
  Forall (fun c => Text.is_space c = true) p1 ->
  Forall (fun c => Text.is_space c = true) p2 ->
  list_ascii_of_string s' = p1 ++ list_ascii_of_string s ++ p2 ->
  parse_hours (VStr s') = parse_hours (VStr s).
Proof.
  intros H1 H2 Hs. unfold parse_hours. cbn [pd_isna]. unfold hours_of_text.
  rewrite Hs, StripFacts.strip_padding by assumption. reflexivity.
Qed.


(** X4. A text of digits, with single underscores between them or not, has
    the hours of the integer it spells, rounded to a double; where that
    integer fits a double the text and the integer give the same hours. *)
Theorem digits_text_as_integer (s : string) (v : Z) (n : nat) :
  Text.digits (list_ascii_of_string s) = Some (v, n) ->
  parse_hours (VStr s) = Ok (Py.float_of_Z v)
  /\ (fits_double v = true -> parse_hours (VStr s) = parse_hours (VInt v)).
Proof.
  intros Hd.
  assert (parse_hours (VStr s) = Ok (Py.float_of_Z v)) as Hs.
  { unfold parse_hours. cbn [pd_isna]. unfold hours_of_text.
    rewrite (DigitFacts.digits_no_colon _ _ _ Hd).
    pose proof (DigitFacts.read_digits_chars _ _ _ _ _ _ Hd) as Hall.
    rewrite DigitFacts.strip_id.
    2:{ eapply List.Forall_impl; [|exact Hall]. intros c Hc.
        apply (DigitFacts.digit_char_facts c Hc). }
    rewrite (DigitFacts.py_float_digits _ _ _ Hd). reflexivity. }
  split; [exact Hs|].
  intros Hfit. rewrite Hs. unfold parse_hours, Py.float_of_int. cbn [pd_isna].
  unfold fits_double in Hfit. apply negb_true_iff in Hfit. rewrite Hfit. reflexivity.
Qed.

(** ** The order of the monthly totals *)

Module OrderFacts.

Lemma ascii_compare_refl (c : ascii) : Ascii.compare c c = Eq.
Proof. unfold Ascii.compare. apply N.compare_refl. Qed.

Lemma string_compare_refl (s : string) : String.compare s s = Eq.
Proof.
  induction s as [|c s IH]; cbn; [reflexivity|].
  rewrite ascii_compare_refl. exact IH.
Qed.

Lemma ascii_compare_trans (a b c : ascii) :
  Ascii.compare a b = Lt -> Ascii.compare b c = Lt -> Ascii.compare a c = Lt.
Proof.
  unfold Ascii.compare. rewrite !N.compare_lt_iff. lia.
Qed.

Lemma string_compare_trans (s1 s2 s3 : string) :
  String.compare s1 s2 = Lt -> String.compare s2 s3 = Lt ->
  String.compare s1 s3 = Lt.
Proof.
  revert s2 s3. induction s1 as [|a s1 IH]; intros [|b s2] [|c s3]; cbn;
    try discriminate; try reflexivity.
  destruct (Ascii.compare a b) eqn:Hab; try discriminate.
  - apply Ascii.compare_eq_iff in Hab. subst b.
    destruct (Ascii.compare a c); try discriminate; [apply IH|reflexivity].
  - intros _. destruct (Ascii.compare b c) eqn:Hbc; try discriminate.
    + apply Ascii.compare_eq_iff in Hbc. subst c. rewrite Hab. reflexivity.
    + rewrite (ascii_compare_trans _ _ _ Hab Hbc). reflexivity.
Qed.

Lemma string_leb_trans (s1 s2 s3 : string) :
  String.leb s1 s2 = true -> String.leb s2 s3 = true -> String.leb s1 s3 = true.
Proof.
  unfold String.leb.
  destruct (String.compare s1 s2) eqn:H12; try discriminate;
    destruct (String.compare s2 s3) eqn:H23; try discriminate; intros _ _.
  - apply String.compare_eq_iff in H12, H23. subst.
    rewrite string_compare_refl. reflexivity.
  - apply String.compare_eq_iff in H12. subst. rewrite H23. reflexivity.
  - apply String.compare_eq_iff in H23. subst. rewrite H12. reflexivity.
  - rewrite (string_compare_trans _ _ _ H12 H23). reflexivity.
Qed.

#[global] Instance key_le_total : Total key_le.
Proof.
  intros [i1 n1] [i2 n2]. unfold key_le, key_leb. cbn [fst snd].
  rewrite (String.compare_antisym i2 i1).
  destruct (String.compare i1 i2); cbn; auto.
  destruct (String.leb_total n1 n2) as [H|H]; rewrite H; cbn; auto.
Qed.

#[global] Instance key_le_trans : Transitive key_le.
Proof.
  intros [i1 n1] [i2 n2] [i3 n3]. unfold key_le, key_leb. cbn [fst snd].
  destruct (String.compare i1 i2) eqn:H12; cbn; try contradiction;
    destruct (String.compare i2 i3) eqn:H23; cbn; try contradiction.
  - apply String.compare_eq_iff in H12, H23. subst.
    rewrite string_compare_refl. intros Ha Hb.
    apply Is_true_true. apply Is_true_true in Ha, Hb.
    eapply string_leb_trans; eassumption.
  - apply String.compare_eq_iff in H12. subst. rewrite H23. auto.
  - apply String.compare_eq_iff in H23. subst. rewrite H12. auto.
  - rewrite (string_compare_trans _ _ _ H12 H23). auto.
Qed.

End OrderFacts.

Section EngineExtras.

Variable to_datetime : list cell -> list (option timestamp).
Variable group_sum : list float -> float.

(** X5. The monthly totals come in ascending order of the employee id, then
    of the name. *)
Theorem monthly_totals_sorted (w : world) (df : nat) (rows : dataframe)
    (b a : Py.num) (h : option (list date)) (rep : report) :
  frames w !! df = Some rows ->
  snd (calculate_salary to_datetime group_sum w df b a h) = Ok rep ->
  StronglySorted key_le (monthly_key <$> monthly_totals rep).
Proof.
  intros Hf Hr. rewrite (calculate_salary_result _ _ _ _ _ _ _ _ Hf) in Hr.
  apply pay_of_table_inv in Hr as (_ & _ & Hm).
  rewrite (monthly_keys _ _ _ _ _ Hm). unfold group_keys.
  apply StronglySorted_merge_sort; apply _.
Qed.

End EngineExtras.

(** ** A second call on the same table *)

Lemma for_each_ext {A B : Type} (f g : A -> result B) (l : list A) :
  (forall x, x ∈ l -> f x = g x) -> for_each f l = for_each g l.
Proof.
  induction l as [|x l IH]; intros H; cbn; [reflexivity|].
  rewrite (H x) by apply list_elem_of_here.
  rewrite IH by (intros y Hy; apply H, list_elem_of_further, Hy). reflexivity.
Qed.

Section SecondCall.

Variable to_datetime : list cell -> list (option timestamp).
Variable group_sum : list float -> float.

Lemma daily_entry_blank (hw : float) (holidays : list date) (r : attendance) :
  daily_entry hw holidays (blank_times r)
  = forget_times <$> daily_entry hw holidays r.
Proof.
  unfold daily_entry. cbn.
  destruct (parse_hours (default _ (total_working_hours r))); [cbn|reflexivity].
  destruct (parse_hours (default _ (extra_working_time r))); [cbn|reflexivity].
  destruct (rest_day (date_cell r) holidays); [cbn|reflexivity].
  destruct (Py.float_mul_num _ _); [cbn|reflexivity].
  destruct (cell_date (date_cell r)); reflexivity.
Qed.

Lemma for_each_blank (hw : float) (holidays : list date) (df : dataframe) :
  for_each (daily_entry hw holidays) (blank_times <$> df)
  = fmap (M := result) (fmap (M := list) forget_times)
      (for_each (daily_entry hw holidays) df).
Proof.
  induction df as [|r df IH]; [reflexivity|].
  cbn [fmap list_fmap for_each]. rewrite daily_entry_blank.
  change (list_fmap _ _ blank_times df) with (blank_times <$> df). rewrite IH.
  destruct (daily_entry hw holidays r); [cbn|reflexivity].
  destruct (for_each _ df); reflexivity.
Qed.

Lemma group_keys_forget (es : list daily_pay_entry) :
  group_keys (forget_times <$> es) = group_keys es.
Proof.
  unfold group_keys. f_equal. f_equal.
  induction es as [|e es IH]; [reflexivity|].
  cbn. change (entry_key (forget_times e)) with (entry_key e).
  change (omap entry_key (list_fmap _ _ forget_times es))
    with (omap entry_key (forget_times <$> es)).
  rewrite IH. reflexivity.
Qed.

Lemma group_forget (k : key) (es : list daily_pay_entry) :
  group k (forget_times <$> es) = forget_times <$> group k es.
Proof.
  unfold group. induction es as [|e es IH]; [reflexivity|].
  cbn [fmap list_fmap]. rewrite !filter_cons.
  change (entry_key (forget_times e)) with (entry_key e).
  change (list_fmap _ _ forget_times es) with (forget_times <$> es).
  rewrite IH.
  destruct (decide (entry_key e = Some k)); reflexivity.
Qed.

Lemma monthly_forget (es : list daily_pay_entry) (b a : Py.num) :
  monthly group_sum (forget_times <$> es) b a = monthly group_sum es b a.
Proof.
  destruct es as [|e es]; [reflexivity|].
  pose proof (group_keys_forget (e :: es)) as Hk.
  unfold monthly. cbn [fmap list_fmap] in *.
  destruct (Py.add b a) as [fixed|]; [cbn [mbind result_bind]|reflexivity].
  rewrite Hk.
  change (forget_times e :: list_fmap _ _ forget_times es)
    with (forget_times <$> (e :: es)).
  apply for_each_ext. intros k _.
  unfold monthly_row.
  pose proof (group_forget k (e :: es)) as Hg. cbn [fmap list_fmap] in Hg.
  rewrite Hg, <- !list_fmap_compose. reflexivity.
Qed.

Lemma pay_of_table_blank (df : dataframe) (b a : Py.num) (holidays : list date) :
  pay_of_table group_sum (blank_times <$> df) b a holidays
  = forget_report_times <$> pay_of_table group_sum df b a holidays.
Proof.
  unfold pay_of_table.
  destruct (wage_rates b a) as [[dw hw]|]; [cbn [mbind result_bind]|reflexivity].
  rewrite for_each_blank.
  destruct (for_each (daily_entry hw holidays) df) as [es|];
    [cbn [fmap result_fmap mbind result_bind]|reflexivity].
  rewrite monthly_forget.
  destruct (monthly group_sum es b a); reflexivity.
Qed.

Lemma datetime_column (df : dataframe) :
  Forall (fun c => c = CNaT \/ exists t, c = CTimestamp t)
    (date_cell <$> coerce to_datetime df).
Proof.
  apply Forall_lookup. intros i c. rewrite list_lookup_fmap, coerce_lookup.
  destruct (df !! i) as [r|]; [|discriminate]. intros [= <-]. cbn.
  destruct (mjoin _); cbn; eauto.
Qed.

Lemma time_column (proj : attendance -> cell) (df : dataframe) :
  proj = in_time \/ proj = out_time ->
  Forall (fun c => c = CNaT \/ exists t, c = CTime t)
    (proj <$> coerce to_datetime df).
Proof.
  intros Hp. apply Forall_lookup. intros i c.
  rewrite list_lookup_fmap, coerce_lookup.
  destruct (df !! i) as [r|]; [|discriminate]. intros [= <-].
  destruct Hp as [-> | ->]; cbn; destruct (mjoin _); cbn; eauto.
Qed.

(** Coercing a coerced table keeps its dates and blanks its times. *)
Lemma coerce_twice (df : dataframe) :
  reads_back to_datetime ->
  coerce to_datetime (coerce to_datetime df)
  = blank_times <$> coerce to_datetime df.
Proof.
  intros [Hd Ht]. apply list_eq. intros i.
  rewrite list_lookup_fmap, (coerce_lookup _ (coerce to_datetime df)).
  destruct (coerce to_datetime df !! i) as [r|] eqn:Hi; [|reflexivity].
  cbn [fmap option_fmap option_map]. f_equal.
  unfold coerced_row, blank_times, set_in_time, set_out_time. cbn.
  rewrite (Hd _ (datetime_column df)).
  rewrite (Ht _ (time_column in_time df (or_introl eq_refl))).
  rewrite (Ht _ (time_column out_time df (or_intror eq_refl))).
  rewrite !list_lookup_fmap, Hi. cbn.
  pose proof (coerced_date to_datetime df i r Hi) as [[t Hc]|Hc];
    rewrite Hc; reflexivity.
Qed.

(** X6. A second call on the table the first call was given returns what the
    first returned, exception or report, but for the times of arrival and
    departure of the breakdown, which are gone; the table is left with
    its dates and without its times. *)
Theorem second_call_same_pay (w : world) (df : nat) (rows : dataframe)
    (b a : Py.num) (h : option (list date)) :
  reads_back to_datetime ->
  frames w !! df = Some rows ->
  let first := calculate_salary to_datetime group_sum w df b a h in
  let second := calculate_salary to_datetime group_sum (fst first) df b a h in
  snd second = forget_report_times <$> snd first
  /\ frames (fst second) !! df = Some (blank_times <$> coerce to_datetime rows).
Proof.
  intros Hback Hf first second.
  assert (frames (fst first) !! df = Some (coerce to_datetime rows)) as Hf1.
  { subst first. rewrite (calculate_salary_world _ _ _ _ _ _ _ _ Hf). cbn.
    apply lookup_insert_eq. }
  assert (default_holidays (fst first) = default_holidays w) as Hd.
  { subst first. rewrite (calculate_salary_world _ _ _ _ _ _ _ _ Hf). reflexivity. }
  split.
  - subst second. rewrite (calculate_salary_result _ _ _ _ _ _ _ _ Hf1), Hd.
    rewrite (coerce_twice _ Hback), pay_of_table_blank.
    subst first. rewrite (calculate_salary_result _ _ _ _ _ _ _ _ Hf). reflexivity.
  - subst second. rewrite (calculate_salary_world _ _ _ _ _ _ _ _ Hf1). cbn.
    rewrite lookup_insert_eq, (coerce_twice _ Hback). reflexivity.
Qed.

End SecondCall.

(** ** Empty batches, anonymous records and the holidays as a set *)

Section Batches.

Variable to_datetime : list cell -> list (option timestamp).
Variable group_sum : list float -> float.

(** X7. On a table that has the five columns the engine names, the call
    raises [KeyError] exactly when the table has no rows and the wage rates
    can be computed. *)
Theorem key_error_iff_no_rows (w : world) (df : nat) (rows : dataframe)
    (b a : Py.num) (h : option (list date)) :
  frames w !! df = Some rows ->
  snd (calculate_salary to_datetime group_sum w df b a h) = Raise KeyError
  <-> rows = [] /\ is_ok (wage_rates b a) = true.
Proof.
  intros Hf. rewrite (calculate_salary_result _ _ _ _ _ _ _ _ Hf). split.
  - intros Hr. destruct rows as [|r rows].
    + split; [reflexivity|]. unfold pay_of_table in Hr.
      destruct (wage_rates b a) as [[dw hw]|e] eqn:Ew; [reflexivity|].
      cbn in Hr. injection Hr as ->.
      apply wage_rates_raise in Ew. discriminate.
    + rewrite <- (calculate_salary_result _ _ _ _ _ _ _ _ Hf) in Hr.
      apply (calculate_salary_raise _ _ _ _ _ _ _ _ _ Hf) in Hr; discriminate.
  - intros [-> Hw]. unfold pay_of_table.
    destruct (wage_rates b a) as [[dw hw]|e]; [reflexivity|discriminate].
Qed.


(** X9. The holidays count as a set: their order and their repetitions do not
    change what the call returns nor what it leaves in the table. *)
Theorem holidays_as_a_set (w : world) (df : nat) (b a : Py.num)
    (h1 h2 : list date) :
  (forall d, d ∈ h1 <-> d ∈ h2) ->
  calculate_salary to_datetime group_sum w df b a (Some h1)
  = calculate_salary to_datetime group_sum w df b a (Some h2).
Proof.
  intros Hset. unfold calculate_salary.
  destruct (frames w !! df) as [rows|]; [|reflexivity].
  f_equal. cbn [default]. unfold pay_of_table.
  destruct (wage_rates b a) as [[dw hw]|]; [cbn|reflexivity].
  rewrite (for_each_ext (daily_entry hw h1) (daily_entry hw h2)); [reflexivity|].
  intros r _. unfold daily_entry.
  assert (rest_day (date_cell r) h1 = rest_day (date_cell r) h2) as ->; [|reflexivity].
  unfold rest_day. destruct (cell_weekday (date_cell r)) as [wd|]; [cbn|reflexivity].
  destruct (Py.num_eq_int wd 4); [reflexivity|].
  destruct (cell_date (date_cell r)) as [[d|]|]; cbn; try reflexivity.
  f_equal. apply bool_decide_ext, Hset.
Qed.

End Batches.

(** ** The groups behind the monthly totals *)

Module GroupFacts.

Lemma group_cons (k : key) (e : daily_pay_entry) (es : list daily_pay_entry) :
  group k (e :: es)
  = if decide (entry_key e = Some k) then e :: group k es else group k es.
Proof. unfold group. rewrite filter_cons. reflexivity. Qed.

Lemma groups_nil (ks : list key) : concat ((fun k => group k []) <$> ks) = [].
Proof. induction ks as [|k ks IH]; [reflexivity|exact IH]. Qed.

(** A row without a key, or with a key that is not listed, is in no
    group. *)
Lemma groups_cons_out (ks : list key) (e : daily_pay_entry)
    (es : list daily_pay_entry) :
  (forall k, entry_key e = Some k -> k ∉ ks) ->
  concat ((fun k => group k (e :: es)) <$> ks)
  = concat ((fun k => group k es) <$> ks).
Proof.
  induction ks as [|k ks IH]; intros Hout; [reflexivity|].
  cbn [fmap list_fmap concat]. rewrite group_cons.
  destruct (decide (entry_key e = Some k)) as [Hk|_].
  - exfalso. apply (Hout k Hk), list_elem_of_here.
  - f_equal. apply IH. intros k' Hk' Hin.
    apply (Hout k' Hk'), list_elem_of_further, Hin.
Qed.

(** A row with a listed key is in the group of that key and in no
    other. *)
Lemma groups_cons_in (ks : list key) (k : key) (e : daily_pay_entry)
    (es : list daily_pay_entry) :
  NoDup ks -> k ∈ ks -> entry_key e = Some k ->
  concat ((fun k => group k (e :: es)) <$> ks)
  ≡ₚ e :: concat ((fun k => group k es) <$> ks).
Proof.
  intros Hnd. induction Hnd as [|k0 ks Hnotin Hnd IH]; intros Hin Hk.
  - apply elem_of_nil in Hin. contradiction.
  - cbn [fmap list_fmap concat]. rewrite group_cons.
    destruct (decide (entry_key e = Some k0)) as [Hk0|Hk0].
    + assert (k0 = k) as -> by congruence.
      change (list_fmap _ _ ?f ks) with (f <$> ks).
      rewrite (groups_cons_out ks e es); [reflexivity|].
      intros k' Hk'. assert (k' = k) as -> by congruence. exact Hnotin.
    + apply elem_of_cons in Hin as [->|Hin]; [congruence|].
      change (list_fmap _ _ ?f ks) with (f <$> ks).
      rewrite (IH Hin Hk). symmetry. apply Permutation_middle.
Qed.

Lemma groups_partition (ks : list key) (es : list daily_pay_entry) :
  NoDup ks ->
  (forall e k, e ∈ es -> entry_key e = Some k -> k ∈ ks) ->
  concat ((fun k => group k es) <$> ks)
  ≡ₚ filter (fun e => is_Some (entry_key e)) es.
Proof.
  intros Hnd. induction es as [|e es IH]; intros Hall.
  - rewrite groups_nil. reflexivity.
  - rewrite filter_cons.
    assert (concat ((fun k => group k es) <$> ks)
            ≡ₚ filter (fun e => is_Some (entry_key e)) es) as IH'.
    { apply IH. intros e' k He'. apply Hall, list_elem_of_further, He'. }
    destruct (entry_key e) as [k|] eqn:Hk.
    + rewrite decide_True by eauto.
      rewrite (groups_cons_in ks k e es Hnd); [|eapply Hall;
        [apply list_elem_of_here|exact Hk]|exact Hk].
      rewrite IH'. reflexivity.
    + rewrite decide_False by (intros [? ?]; discriminate).
      rewrite groups_cons_out by (intros k' Hk'; congruence).
      exact IH'.
Qed.

End GroupFacts.

Section Partition.

Variable to_datetime : list cell -> list (option timestamp).
Variable group_sum : list float -> float.

(** X10. The groups behind the monthly totals, taken in the order of the
    totals, hold each row of the breakdown that has an id and a name once,
    and no other row. *)
Theorem monthly_groups_partition_breakdown (w : world) (df : nat)
    (rows : dataframe) (b a : Py.num) (h : option (list date)) (rep : report) :
  frames w !! df = Some rows ->
  snd (calculate_salary to_datetime group_sum w df b a h) = Ok rep ->
  concat ((fun m => group (monthly_key m) (breakdown_df rep)) <$> monthly_totals rep)
  ≡ₚ filter (fun e => is_Some (entry_key e)) (breakdown_df rep).
Proof.
  intros Hf Hr. rewrite (calculate_salary_result _ _ _ _ _ _ _ _ Hf) in Hr.
  apply pay_of_table_inv in Hr as (_ & _ & Hm).
  apply monthly_keys in Hm.
  rewrite (list_fmap_compose monthly_key (fun k => group k (breakdown_df rep))), Hm.
  apply GroupFacts.groups_partition; [apply group_keys_NoDup|].
  intros e k He Hk. apply group_keys_elem_of. exists e. auto.
Qed.

End Partition.

(** ** A sheet without hours *)

Module ZeroFacts.

Lemma finite_cases (x : float) :
  is_finite x = true ->
  match Prim2SF x with
  | S754_zero _ | S754_finite _ _ _ => True
  | _ => False
  end.
Proof.
  unfold is_finite, is_nan, is_infinity.
  rewrite !FloatAxioms.eqb_spec, FloatAxioms.abs_spec.
  destruct (Prim2SF x) as [s| [] | |s m e]; cbn; try exact (fun _ => I);
    discriminate.
Qed.

Lemma is_zero_sf (x : float) : zero_sf (Prim2SF x) = true -> is_zero x = true.
Proof.
  unfold is_zero. rewrite FloatAxioms.eqb_spec.
  destruct (Prim2SF x); cbn; try discriminate. reflexivity.
Qed.

Lemma zero_mul_finite (hw : float) :
  is_finite hw = true -> zero_sf (Prim2SF (0 * hw)) = true.
Proof.
  intros H. apply finite_cases in H. rewrite mul_spec.
  change (Prim2SF 0) with (S754_zero false).
  destruct (Prim2SF hw); cbn; try contradiction; reflexivity.
Qed.

Lemma zero_mul_factor (x : float) (rest : bool) :
  zero_sf (Prim2SF x) = true ->
  zero_sf (Prim2SF (x * (if rest then 1.5 else 1))) = true.
Proof.
  intros H. rewrite mul_spec.
  destruct (Prim2SF x); try discriminate.
  destruct rest; reflexivity.
Qed.

Lemma zero_add (x y : float) :
  zero_sf (Prim2SF x) = true -> zero_sf (Prim2SF y) = true ->
  zero_sf (Prim2SF (x + y)) = true.
Proof.
  rewrite add_spec.
  destruct (Prim2SF x) as [[]| | |], (Prim2SF y) as [[]| | |];
    try discriminate; reflexivity.
Qed.

Lemma round2_zero (x : float) :
  zero_sf (Prim2SF x) = true -> Py.round2 x = x.
Proof.
  unfold Py.round2. destruct (Prim2SF x); try discriminate. reflexivity.
Qed.

(** With no hours the pay is a zero, on a rest day as on any other. *)
Lemma pay_no_hours (hw : float) (rest : bool) :
  is_finite hw = true -> is_zero (pay hw rest 0 0) = true.
Proof.
  intros H. apply is_zero_sf. unfold pay.
  rewrite round2_zero; apply zero_add;
    auto using zero_mul_factor, zero_mul_finite.
Qed.

End ZeroFacts.

Section NoHours.

Variable to_datetime : list cell -> list (option timestamp).
Variable group_sum : list float -> float.

(** X11. On a sheet that has neither of the two hours columns every row of
    the breakdown has no hours and a pay of zero, whatever its date, as
    long as the hourly wage is finite. *)
Theorem no_hours_columns_no_daily_pay (w : world) (df : nat) (rows : dataframe)
    (b a : Py.num) (h : option (list date)) (rep : report) :
  frames w !! df = Some rows ->
  Forall (fun r => total_working_hours r = None /\ extra_working_time r = None)
    rows ->
  snd (calculate_salary to_datetime group_sum w df b a h) = Ok rep ->
  is_finite (hourly_wage rep) = true ->
  Forall (fun e => e_total_hours e = 0%float /\ e_extra_hours e = 0%float
                   /\ is_zero (e_daily_pay e) = true)
    (breakdown_df rep).
Proof.
  intros Hf Hnone Hr Hfin. apply Forall_lookup. intros i e He.
  destruct (breakdown_lookup _ _ _ _ _ _ _ _ _ _ _ Hf Hr He) as (r' & Hr' & Hentry).
  rewrite coerce_lookup in Hr'.
  destruct (rows !! i) as [r|] eqn:Hi; [|discriminate].
  injection Hr' as <-.
  rewrite Forall_lookup in Hnone. destruct (Hnone i r Hi) as [Ht Hx].
  apply daily_entry_inv in Hentry
    as (rest & _ & Hth & Heh & _ & _ & _ & _ & _ & Hpay).
  cbn in Hth, Heh. rewrite Ht in Hth. rewrite Hx in Heh.
  injection Hth as Hth. injection Heh as Heh.
  rewrite Hpay, <- Hth, <- Heh.
  split; [reflexivity|]. split; [reflexivity|].
  apply ZeroFacts.pay_no_hours, Hfin.
Qed.

End NoHours.

(** ** The application *)

Module DivFacts.

Lemma div_eight_nonneg (x : float) : nonneg x -> nonneg (x / 8).
Proof.
  unfold nonneg. rewrite div_spec.
  change (Prim2SF 8) with (S754_finite false 4503599627370496 (-49)).
  destruct (Prim2SF x) as [[]|[]| |[] m e]; cbn [nonneg_sf negb];
    try discriminate; try reflexivity.
  intros _. apply FloatFacts.SFdiv_nonneg.
Qed.

End DivFacts.

Section HolidayText.

Variable fromisoformat : Text.text -> result date.

Lemma for_each_app {A B : Type} (f : A -> result B) (l1 l2 : list A) :
  for_each f (l1 ++ l2)
  = (ys1 ← for_each f l1; ys2 ← for_each f l2; Ok (ys1 ++ ys2)).
Proof.
  induction l1 as [|x l1 IH]; cbn.
  - destruct (for_each f l2); reflexivity.
  - destruct (f x) as [y|]; [cbn|reflexivity]. rewrite IH.
    destruct (for_each f l1) as [ys1|]; [cbn|reflexivity].
    destruct (for_each f l2); reflexivity.
Qed.

(** The holidays of any text, empty or not, from its parts. *)
Lemma holidays_of_parts (t : Text.text) :
  holidays_of_input fromisoformat t
  = for_each (fun d => fromisoformat (Text.strip d))
      (filter (fun d => Text.strip d <> []) (Text.split "," t)).
Proof. destruct t; reflexivity. Qed.

(** X12. The holidays of a text are those of what stands before a comma,
    followed by those of what stands after it; the first part that is no
    date ends the reading. *)
Theorem holidays_at_a_comma (t1 t2 : Text.text) :
  holidays_of_input fromisoformat (t1 ++ ","%char :: t2)
  = (h1 ← holidays_of_input fromisoformat t1;
     h2 ← holidays_of_input fromisoformat t2;
     Ok (h1 ++ h2)).
Proof.
  rewrite !holidays_of_parts, SplitFacts.split_app, filter_app.
  apply for_each_app.
Qed.

(** A text without a comma is one date, read without the white space
    around it, or no date at all when it is blank. *)
Lemma holidays_of_one_part (t : Text.text) :
  Text.contains "," t = false ->
  holidays_of_input fromisoformat t
  = match Text.strip t with
    | [] => Ok []
    | d => x ← fromisoformat d; Ok [x]
    end.
Proof.
  intros Hc. rewrite holidays_of_parts, (TextFacts.split_without _ _ Hc).
  rewrite filter_cons, filter_nil.
  destruct (Text.strip t) as [|c d] eqn:Hs.
  - rewrite decide_False by congruence. reflexivity.
  - rewrite decide_True by congruence. cbn. rewrite Hs.
    destruct (fromisoformat (c :: d)); reflexivity.
Qed.

Lemma strip_spaces (t : Text.text) :
  Forall (fun c => Text.is_space c = true) t -> Text.strip t = [].
Proof.
  intros H. unfold Text.strip. rewrite (StripFacts.lstrip_all_spaces t H).
  reflexivity.
Qed.

(** X13. Commas and white space alone name no holiday. *)
Theorem blank_holiday_text (t : Text.text) :
  Forall (fun c => Text.is_space c = true \/ c = ","%char) t ->
  holidays_of_input fromisoformat t = Ok [].
Proof.
  intros H. rewrite holidays_of_parts.
  assert (forall acc,
    Forall (fun c => Text.is_space c = true) acc ->
    Forall (fun d => Forall (fun c => Text.is_space c = true) d)
      (match Text.split "," t with
       | p :: ps => (acc ++ p) :: ps
       | [] => []
       end)) as Hparts.
  { induction H as [|c t Hc Ht IH]; intros acc Hacc; cbn.
    - constructor; [rewrite app_nil_r; exact Hacc|constructor].
    - destruct Hc as [Hc| ->].
      + destruct (Text.is_char "," c) eqn:Hcomma.
        * apply Ascii.eqb_eq in Hcomma. subst c. discriminate Hc.
        * specialize (IH (acc ++ [c])).
          destruct (Text.split "," t) as [|p ps].
          -- constructor; [|constructor].
             apply Forall_app; split; [exact Hacc|]. constructor; auto.
          -- rewrite <- app_assoc in IH. apply IH.
             apply Forall_app; split; [exact Hacc|]. constructor; auto.
      + unfold Text.is_char at 1. rewrite Ascii.eqb_refl.
        constructor; [rewrite app_nil_r; exact Hacc|].
        specialize (IH [] ltac:(constructor)).
        destruct (Text.split "," t); exact IH. }
  specialize (Hparts [] ltac:(constructor)).
  assert (Forall (fun d => Forall (fun c => Text.is_space c = true) d)
            (Text.split "," t)) as Hall
    by (destruct (Text.split "," t); [constructor|exact Hparts]).
  clear Hparts. induction Hall as [|d ds Hd _ IH]; [reflexivity|].
  rewrite filter_cons, decide_False; [exact IH|].
  intros Hne. apply Hne, strip_spaces, Hd.
Qed.

End HolidayText.

Section AppFacts.

Variable fromisoformat : Text.text -> result date.
Variable to_datetime : list cell -> list (option timestamp).
Variable group_sum : list float -> float.

(** What a run that displays a report went through. *)
Lemma main_report (w w' : world) (sheet : dataframe) (b a : Z) (t : Text.text)
    (rep : report) :
  main fromisoformat to_datetime group_sum w (Some sheet) b a t
  = (w', Ok (Some rep)) ->
  0 < b
  /\ exists hs,
       holidays_of_input fromisoformat t = Ok hs
       /\ pay_of_table group_sum (coerce to_datetime sheet)
            (Py.PInt b) (Py.PInt a) hs = Ok rep.
Proof.
  unfold main. destruct (Z.ltb_spec 0 b) as [Hb|_]; [|discriminate].
  destruct (holidays_of_input fromisoformat t) as [hs|]; [|discriminate].
  unfold calculate_salary. cbn [frames]. rewrite lookup_insert_eq. cbn [default].
  intros H. injection H as _ H.
  destruct (pay_of_table _ _ _ _ _) as [rep'|] eqn:Hrep; [|discriminate].
  injection H as ->. split; [exact Hb|]. exists hs. auto.
Qed.

(** X14. The application computes a report only for a basic salary above
    zero, and with an allowance that is not negative, as the number input
    admits, the two wage rates it displays are not negative. *)
Theorem main_wage_rates_not_negative (w w' : world) (sheet : dataframe)
    (b a : Z) (t : Text.text) (rep : report) :
  0 <= a ->
  main fromisoformat to_datetime group_sum w (Some sheet) b a t
  = (w', Ok (Some rep)) ->
  0 < b
  /\ (0 <=? daily_wage rep)%float = true
  /\ (0 <=? hourly_wage rep)%float = true.
Proof.
  intros Ha H. apply main_report in H as (Hb & hs & _ & Hrep).
  apply pay_of_table_inv in Hrep as (Hw & _).
  apply wage_rates_int in Hw as [Hdw Hhw].
  assert (nonneg (daily_wage rep)) as Hd
    by (rewrite Hdw; apply FloatFacts.int_quotient_nonneg; lia).
  split; [exact Hb|]. split; apply FloatFacts.nonneg_leb; [exact Hd|].
  rewrite Hhw. apply DivFacts.div_eight_nonneg, Hd.
Qed.

(** No run displays anything without an upload or with a basic salary of
    zero or less; such a run changes nothing and raises nothing. *)
Lemma main_guard (w : world) (uploaded_file : option dataframe) (b a : Z)
    (t : Text.text) :
  uploaded_file = None \/ b <= 0 ->
  main fromisoformat to_datetime group_sum w uploaded_file b a t = (w, Ok None).
Proof.
  intros H. unfold main. destruct uploaded_file as [sheet|]; [|reflexivity].
  destruct H as [H|H]; [discriminate|].
  destruct (Z.ltb_spec 0 b); [lia|reflexivity].
Qed.

Lemma main_result (w : world) (sheet : dataframe) (b a : Z) (t : Text.text) :
  snd (main fromisoformat to_datetime group_sum w (Some sheet) b a t)
  = if 0 <? b then
      hs ← holidays_of_input fromisoformat t;
      Some <$> pay_of_table group_sum (coerce to_datetime sheet)
                 (Py.PInt b) (Py.PInt a) hs
    else Ok None.
Proof.
  unfold main. destruct (0 <? b); [|reflexivity].
  destruct (holidays_of_input fromisoformat t) as [hs|]; [|reflexivity].
  unfold calculate_salary. cbn [frames]. rewrite lookup_insert_eq. reflexivity.
Qed.

Lemma main_frames (w : world) (uploaded_file : option dataframe) (b a : Z)
    (t : Text.text) (df : nat) :
  df ∈ dom (frames w) ->
  frames (fst (main fromisoformat to_datetime group_sum w uploaded_file b a t)) !! df
  = frames w !! df.
Proof.
  intros Hin. unfold main. destruct uploaded_file as [sheet|]; [|reflexivity].
  destruct (0 <? b); [|reflexivity].
  assert (fresh (dom (frames w)) <> df) as Hne
    by (intros <-; apply (is_fresh (dom (frames w))), Hin).
  destruct (holidays_of_input fromisoformat t) as [hs|]; cbn.
  - unfold calculate_salary. cbn [frames]. rewrite lookup_insert_eq. cbn.
    rewrite !lookup_insert_ne by exact Hne. reflexivity.
  - rewrite lookup_insert_ne by exact Hne. reflexivity.
Qed.

(** X15. Every run reads the upload into a table of its own: a run leaves the
    tables that exist and the default holidays as they are, and running
    again on the same entries displays the same report or raises the same
    exception. *)
Theorem main_rerun_same_result (w : world) (uploaded_file : option dataframe)
    (b a : Z) (t : Text.text) :
  let first := main fromisoformat to_datetime group_sum w uploaded_file b a t in
  let second :=
    main fromisoformat to_datetime group_sum (fst first) uploaded_file b a t in
  snd second = snd first
  /\ (forall df, df ∈ dom (frames w) -> frames (fst first) !! df = frames w !! df)
  /\ default_holidays (fst first) = default_holidays w.
Proof.
  intros first second. split; [|split].
  - subst first second. destruct uploaded_file as [sheet|]; [|reflexivity].
    rewrite !main_result. reflexivity.
  - intros df Hin. apply main_frames, Hin.
  - subst first. unfold main. destruct uploaded_file as [sheet|]; [|reflexivity].
    destruct (0 <? b); [|reflexivity].
    destruct (holidays_of_input fromisoformat t) as [hs|]; [|reflexivity].
    unfold calculate_salary. cbn [frames]. rewrite lookup_insert_eq. reflexivity.
Qed.

(** X16. A date typed in the text box is paid at the rest-day rate: the row of
    a record whose date is among the holidays read from the text has the
    factor 1.5 on its working hours and none on its extra hours. *)
Theorem typed_holiday_is_a_rest_day (w w' : world) (sheet : dataframe)
    (b a : Z) (t : Text.text) (rep : report) (hs : list date)
    (i : nat) (r : attendance) (ts : timestamp) :
  main fromisoformat to_datetime group_sum w (Some sheet) b a t
  = (w', Ok (Some rep)) ->
  holidays_of_input fromisoformat t = Ok hs ->
  sheet !! i = Some r ->
  mjoin (to_datetime (date_cell <$> sheet) !! i) = Some ts ->
  ts_date ts ∈ hs ->
  exists e,
    breakdown_df rep !! i = Some e
    /\ e_date e = Some (ts_date ts)
    /\ e_daily_pay e
       = Py.round2 (e_total_hours e * hourly_wage rep * 1.5
                    + e_extra_hours e * hourly_wage rep)%float.
Proof.
  intros H Hhs Hi Hts Hin. apply main_report in H as (_ & hs' & Hhs' & Hrep).
  assert (hs' = hs) as -> by congruence.
  apply pay_of_table_inv in Hrep as (_ & Hloop & _).
  apply for_each_Forall2 in Hloop.
  assert (coerce to_datetime sheet !! i = Some (coerced_row to_datetime sheet i r))
    as Hc by (rewrite coerce_lookup, Hi; reflexivity).
  destruct (Forall2_lookup_l _ _ _ _ _ Hloop Hc) as (e & He & Hentry).
  apply daily_entry_inv in Hentry
    as (rest & Hrest & _ & _ & Hdate & _ & _ & _ & _ & Hpay).
  cbn [coerced_row date_cell] in Hrest, Hdate. rewrite Hts in Hrest, Hdate.
  cbn [datetime_cell] in Hrest, Hdate.
  rewrite rest_day_timestamp in Hrest.
  rewrite bool_decide_eq_true_2, orb_true_r in Hrest by exact Hin.
  injection Hrest as <-. cbn in Hdate. injection Hdate as Hdate.
  exists e. split; [exact He|]. split; [symmetry; exact Hdate|exact Hpay].
Qed.

End AppFacts.

(** ** The sign of the pay *)

Module SignFacts.

Lemma leb_zero_inv (x : float) :
  (0 <=? x)%float = true -> nonneg_sf (Prim2SF x) = true.
Proof.
  rewrite leb_spec. change (Prim2SF 0) with (S754_zero false).
  destruct (Prim2SF x) as [s|[]| |[] m e]; cbn; congruence.
Qed.

Lemma SFmul_sign (x y : spec_float) :
  nonneg_or_nan x = true -> nonneg_or_nan y = true ->
  nonneg_or_nan (SFmul prec emax x y) = true.
Proof.
  destruct x as [[]|[]| |[] mx ex], y as [[]|[]| |[] my ey];
    cbn [nonneg_or_nan nonneg_sf negb]; try discriminate; try reflexivity.
  intros _ _. cbn [SFmul xorb].
  pose proof (FloatFacts.binary_round_aux_nonneg (Z.pos (mx * my)) (ex + ey)
                loc_Exact ltac:(lia)) as H.
  destruct (binary_round_aux _ _ _ _ _ _); cbn in *; congruence.
Qed.

Lemma SFadd_sign (x y : spec_float) :
  nonneg_or_nan x = true -> nonneg_or_nan y = true ->
  nonneg_or_nan (SFadd prec emax x y) = true.
Proof.
  intros Hx Hy.
  destruct x as [sx|sx| |sx mx ex] eqn:Ex; try reflexivity;
    destruct y as [sy|sy| |sy my ey] eqn:Ey;
    try (destruct sx; reflexivity);
    try (rewrite <- Ex, <- Ey;
         assert (nonneg_sf (SFadd prec emax x y) = true) as H
           by (apply FloatFacts.SFadd_nonneg; subst; assumption);
         destruct (SFadd prec emax x y); cbn in *; congruence).
Qed.

Lemma mul_sign (x y : float) :
  nonneg_or_nan (Prim2SF x) = true -> nonneg_or_nan (Prim2SF y) = true ->
  nonneg_or_nan (Prim2SF (x * y)) = true.
Proof. rewrite mul_spec. apply SFmul_sign. Qed.

Lemma add_sign (x y : float) :
  nonneg_or_nan (Prim2SF x) = true -> nonneg_or_nan (Prim2SF y) = true ->
  nonneg_or_nan (Prim2SF (x + y)) = true.
Proof. rewrite add_spec. apply SFadd_sign. Qed.

Lemma nonneg_sign (x : spec_float) : nonneg_sf x = true -> nonneg_or_nan x = true.
Proof. destruct x; cbn; congruence. Qed.

Lemma round2_sign (x : float) :
  nonneg_or_nan (Prim2SF x) = true -> nonneg_or_nan (Prim2SF (Py.round2 x)) = true.
Proof.
  intros H. unfold Py.round2.
  destruct (Prim2SF x) as [s|s| |s m e] eqn:Ex; try (rewrite Ex; exact H).
  destruct s; [discriminate H|].
  apply nonneg_sign.
  destruct (Py.hundredths m e) as [|n|n];
    try (apply FloatFacts.Prim2SF_SF2Prim_nonneg; reflexivity).
  apply FloatFacts.Prim2SF_SF2Prim_nonneg, FloatFacts.SFdiv_nonneg.
Qed.

(** With hours and an hourly wage that are not below zero the pay is not
    below zero either, unless it is NaN. *)
Lemma pay_sign (hw th eh : float) (rest : bool) :
  nonneg_sf (Prim2SF hw) = true ->
  nonneg_sf (Prim2SF th) = true ->
  nonneg_sf (Prim2SF eh) = true ->
  nonneg_or_nan (Prim2SF (pay hw rest th eh)) = true.
Proof.
  intros Hw Ht He. unfold pay.
  apply round2_sign, add_sign; [apply mul_sign|]; try apply mul_sign;
    try (apply nonneg_sign; assumption).
  destruct rest; reflexivity.
Qed.

Lemma sign_leb (x : float) :
  nonneg_or_nan (Prim2SF x) = true -> is_nan x = false -> (0 <=? x)%float = true.
Proof.
  intros H Hn. apply FloatFacts.leb_zero_nonneg.
  unfold is_nan in Hn. rewrite FloatAxioms.eqb_spec in Hn.
  destruct (Prim2SF x); cbn in *; congruence.
Qed.

End SignFacts.

Section AppPay.

Variable fromisoformat : Text.text -> result date.
Variable to_datetime : list cell -> list (option timestamp).
Variable group_sum : list float -> float.

(** X17. Through the application no pay is negative where no hours are: on
    every row of the breakdown whose two numbers of hours are not below
    zero the daily pay is not below zero, unless it is NaN. *)
Theorem main_pay_not_negative (w w' : world) (sheet : dataframe)
    (b a : Z) (t : Text.text) (rep : report) :
  0 <= a ->
  main fromisoformat to_datetime group_sum w (Some sheet) b a t
  = (w', Ok (Some rep)) ->
  Forall (fun e =>
            (0 <=? e_total_hours e)%float = true ->
            (0 <=? e_extra_hours e)%float = true ->
            is_nan (e_daily_pay e) = false ->
            (0 <=? e_daily_pay e)%float = true)
    (breakdown_df rep).
Proof.
  intros Ha H. apply main_report in H as (Hb & hs & _ & Hrep).
  apply pay_of_table_inv in Hrep as (Hw & Hloop & _).
  apply wage_rates_int in Hw as [Hdw Hhw].
  assert (nonneg (hourly_wage rep)) as Hh.
  { rewrite Hhw, Hdw. apply DivFacts.div_eight_nonneg.
    apply FloatFacts.int_quotient_nonneg; lia. }
  apply Forall_forall. intros e He Hth Heh Hn.
  destruct (for_each_elem_of _ _ _ _ Hloop He) as (r & _ & Hentry).
  apply daily_entry_inv in Hentry as (rest & _ & _ & _ & _ & _ & _ & _ & _ & Hpay).
  apply SignFacts.sign_leb; [|exact Hn]. rewrite Hpay.
  apply SignFacts.pay_sign; [exact Hh| |]; apply SignFacts.leb_zero_inv; assumption.
Qed.

End AppPay.

(** * The further properties on the sample data *)

Lemma text_with_other_character_witness :
  parse_hours (VStr "8h") = Ok 0%float.
Proof.
  apply (text_with_other_character_is_zero "8h" "h"%char);
    [right; left; reflexivity|reflexivity].
Defined.

Lemma more_than_one_colon_witness :
  parse_hours (VStr "1:2:3") = Ok 0%float.
Proof.
  apply (more_than_one_colon_is_zero "1:2:3" ["1"%char] ["2"%char] ["3"%char]).
  reflexivity.
Defined.

Lemma padding_witness :
  parse_hours (VStr " 8:30 ") = parse_hours (VStr "8:30").
Proof.
  apply (padding_is_ignored "8:30" " 8:30 " [" "%char] [" "%char]);
    [repeat constructor|repeat constructor|reflexivity].
Defined.

Lemma digits_text_witness :
  parse_hours (VStr "1_000") = parse_hours (VInt 1000).
Proof.
  apply (proj2 (digits_text_as_integer "1_000" 1000 4%nat eq_refl)).
  vm_compute. reflexivity.
Defined.

Lemma monthly_totals_sorted_witness :
  StronglySorted key_le (monthly_key <$> monthly_totals Sample.report_35000).
Proof.
  exact (monthly_totals_sorted Sample.to_datetime Sample.group_sum Sample.w0
    0%nat Sample.sheet (Py.PInt 30000) (Py.PInt 5000) None Sample.report_35000
    eq_refl sample_report).
Defined.

Lemma key_error_witness :
  snd (Sample.run Sample.w_empty 0 30000 5000 None) = Raise KeyError.
Proof.
  apply (proj2 (key_error_iff_no_rows Sample.to_datetime Sample.group_sum
    Sample.w_empty 0%nat [] (Py.PInt 30000) (Py.PInt 5000) None eq_refl)).
  split; [reflexivity|vm_compute; reflexivity].
Defined.


Lemma holidays_as_a_set_witness :
  Sample.run Sample.w0 0 30000 5000
    (Some [ {| year := 2024; month := 1; day := 4 |};
            {| year := 2024; month := 1; day := 26 |} ])
  = Sample.run Sample.w0 0 30000 5000
      (Some [ {| year := 2024; month := 1; day := 26 |};
              {| year := 2024; month := 1; day := 4 |};
              {| year := 2024; month := 1; day := 26 |} ]).
Proof.
  apply holidays_as_a_set. intros d.
  rewrite !elem_of_cons, !elem_of_nil. tauto.
Defined.

Lemma sample_reads_back : reads_back Sample.to_datetime.
Proof.
  split; intros col Hcol; unfold Sample.to_datetime; [reflexivity|].
  apply list_fmap_ext. intros i c Hc.
  rewrite Forall_lookup in Hcol. destruct (Hcol i c Hc) as [->|[t ->]]; reflexivity.
Qed.

Lemma second_call_same_pay_witness :
  snd (Sample.run (fst (Sample.run Sample.w0 0 30000 5000 None)) 0 30000 5000 None)
  = forget_report_times <$> snd (Sample.run Sample.w0 0 30000 5000 None).
Proof.
  exact (proj1 (second_call_same_pay Sample.to_datetime Sample.group_sum
    Sample.w0 0%nat Sample.sheet (Py.PInt 30000) (Py.PInt 5000) None
    sample_reads_back eq_refl)).
Defined.

Lemma monthly_groups_witness :
  concat ((fun m => group (monthly_key m) (breakdown_df Sample.report_35000))
            <$> monthly_totals Sample.report_35000)
  ≡ₚ filter (fun e => is_Some (entry_key e)) (breakdown_df Sample.report_35000).
Proof.
  exact (monthly_groups_partition_breakdown Sample.to_datetime Sample.group_sum
    Sample.w0 0%nat Sample.sheet (Py.PInt 30000) (Py.PInt 5000) None
    Sample.report_35000 eq_refl sample_report).
Defined.

Lemma sample_report_bare :
  snd (Sample.run Sample.w_bare 0 30000 5000 None) = Ok Sample.report_bare.
Proof. vm_compute. reflexivity. Qed.

Lemma no_hours_columns_witness :
  Forall (fun e => e_total_hours e = 0%float /\ e_extra_hours e = 0%float
                   /\ is_zero (e_daily_pay e) = true)
    (breakdown_df Sample.report_bare).
Proof.
  apply (no_hours_columns_no_daily_pay Sample.to_datetime Sample.group_sum
    Sample.w_bare 0%nat Sample.bare_sheet (Py.PInt 30000) (Py.PInt 5000) None
    Sample.report_bare eq_refl);
    [repeat constructor|exact sample_report_bare|vm_compute; reflexivity].
Defined.

Lemma blank_holiday_text_witness :
  holidays_of_input Sample.fromisoformat (list_ascii_of_string " , ,") = Ok [].
Proof.
  apply blank_holiday_text.
  repeat (constructor; [first [left; reflexivity|right; reflexivity]|]).
  constructor.
Defined.

Lemma sample_app :
  Sample.app Sample.w0 " 2024-01-04, "
  = (fst (Sample.app Sample.w0 " 2024-01-04, "), Ok (Some Sample.report_app)).
Proof.
  rewrite (surjective_pairing (Sample.app Sample.w0 " 2024-01-04, ")) at 1.
  f_equal; vm_compute; reflexivity.
Qed.

Lemma main_wage_rates_witness :
  0 < 30000
  /\ (0 <=? daily_wage Sample.report_app)%float = true
  /\ (0 <=? hourly_wage Sample.report_app)%float = true.
Proof.
  apply (main_wage_rates_not_negative Sample.fromisoformat Sample.to_datetime
    Sample.group_sum Sample.w0 (fst (Sample.app Sample.w0 " 2024-01-04, "))
    Sample.sheet 30000 5000 (list_ascii_of_string " 2024-01-04, ")
    Sample.report_app); [lia|exact sample_app].
Defined.

Lemma typed_holiday_witness :
  exists e,
    breakdown_df Sample.report_app !! 0%nat = Some e
    /\ e_date e = Some {| year := 2024; month := 1; day := 4 |}
    /\ e_daily_pay e
       = Py.round2 (e_total_hours e * hourly_wage Sample.report_app * 1.5
                    + e_extra_hours e * hourly_wage Sample.report_app)%float.
Proof.
  apply (typed_holiday_is_a_rest_day Sample.fromisoformat Sample.to_datetime
    Sample.group_sum Sample.w0 (fst (Sample.app Sample.w0 " 2024-01-04, "))
    Sample.sheet 30000 5000 (list_ascii_of_string " 2024-01-04, ")
    Sample.report_app [ {| year := 2024; month := 1; day := 4 |} ] 0%nat
    (Sample.row "E1" "Asha" (Sample.at_ 2024 1 4 0 0) (Sample.at_ 2024 1 4 9 0)
       (Sample.at_ 2024 1 4 17 0) (VInt 8) (VInt 0))
    {| ts_date := {| year := 2024; month := 1; day := 4 |};
       ts_time := {| hour := 0; minute := 0; second := 0; microsecond := 0 |} |}
    sample_app);
    [vm_compute; reflexivity|reflexivity|reflexivity|apply list_elem_of_here].
Defined.

Lemma main_pay_witness :
  Forall (fun e =>
            (0 <=? e_total_hours e)%float = true ->
            (0 <=? e_extra_hours e)%float = true ->
            is_nan (e_daily_pay e) = false ->
            (0 <=? e_daily_pay e)%float = true)
    (breakdown_df Sample.report_app).
Proof.
  apply (main_pay_not_negative Sample.fromisoformat Sample.to_datetime
    Sample.group_sum Sample.w0 (fst (Sample.app Sample.w0 " 2024-01-04, "))
    Sample.sheet 30000 5000 (list_ascii_of_string " 2024-01-04, ")
    Sample.report_app); [lia|exact sample_app].
Defined.
